(** * StoryTeller: page directory, broadcast relay, type bridge, sheet swap

    A shallow embedding of [src/main.js].  The module is glue code around
    a host platform, so the embedding is a state-and-exception monad over
    a record [world] holding the host objects the module reads and
    writes, together with a chronological log of the host calls it makes.

    Conventions.
    - A JavaScript object used as a table keyed by arbitrary strings and
      only ever read by key (the [pages] setting, the journal collection,
      the host label table) is a [gmap string _].
    - A JavaScript object whose own keys are enumerated ([Object.keys],
      [Object.entries]) is an association list in enumeration order.
    - Strings are sequences of code units; [Array.prototype.sort] without
      a comparator orders them lexicographically by code unit.
    - A value received from outside is a [jsval]: [undefined], [null], a
      boolean, an integer number or a string.  Page numbers are integers.
    - An assignment [o[k] = v] follows the language: the key is the
      string form of [k]; on a plain object the key ["__proto__"] names
      the prototype accessor and creates no entry; keys that are array
      indices enumerate first, in ascending order.
    - [async] functions are run to completion: the host serialises
      handler invocations per client, and every awaited host call is
      modelled as succeeding. *)

From stdpp Require Import base decidable option list strings pretty gmap fin_maps sorting.
From Stdlib Require Import ZArith.

Local Open Scope Z_scope.
Local Open Scope string_scope.
Local Open Scope list_scope.

(** ** Data model *)

(** A sheet class; [name] is the constructor's [name] property. *)
Record sheetClass := SheetClass { name : string }.

(** A sheet instance bound to a document. *)
Record sheetInstance := SheetInstance {
  appId : N;
  object : string;     (* id of the document the sheet presents *)
  sheetCls : string
}.

(** A journal document, reduced to the fields the module touches:
    [_sheet] is the cached sheet instance, [apps] the applications
    registered on the document, [flags] the persisted flags keyed by
    scope and name. *)
Record document := Document {
  _id : string;
  _sheet : option sheetInstance;
  apps : gmap N sheetInstance;
  flags : gmap (string * string) string
}.

(** A value as a peer or a caller can send it. *)
Inductive jsval :=
  | JUndefined
  | JNull
  | JBool (b : bool)
  | JNum (z : Z)
  | JStr (s : string).
Coercion JStr : string >-> jsval.

(** The wire message of the channel ["module.storyteller"]: [action]
    and [id] are whatever the peer sent, [JUndefined] when absent. *)
Record message := Message {
  msg_action : jsval;
  msg_id : jsval;
  msg_page : Z
}.

(** The creation options handed to the two creation hooks; [None] is an
    absent [type] property. *)
Record options := Options { opt_type : option string }.

(** An addon descriptor, the argument of [registerAddonSheet]. *)
Record addon := Addon {
  addon_key : string;
  addon_sheet : sheetClass;
  addon_label : string
}.

#[global] Instance sheetClass_eq_dec : EqDecision sheetClass.
Proof. solve_decision. Defined.
#[global] Instance sheetInstance_eq_dec : EqDecision sheetInstance.
Proof. solve_decision. Defined.
#[global] Instance jsval_eq_dec : EqDecision jsval.
Proof. solve_decision. Defined.
#[global] Instance message_eq_dec : EqDecision message.
Proof. solve_decision. Defined.

(** Host calls made by the module, in the order they happen. *)
Inductive event :=
  | Emit (channel : string) (m : message)
  | SettingsSet (pages : gmap string Z)
  | JournalGet (id : string)
  | Show (id : string) (mode : string)
  | Render (s : sheetInstance) (force : bool)
  | Close (s : sheetInstance)
  | SocketOn (channel : string)
  | SetFlag (id : string) (scope key value : string)
  | RegisterSheet (scope : string) (sheet : sheetClass)
      (for_types : list string) (makeDefault : bool) (label : option string).

Inductive jsError := TypeError.

Record world := World {
  pages : gmap string Z;                  (* setting storyteller.pages *)
  journal : gmap string document;         (* game.journal *)
  user : string;                          (* game.user.id *)
  translations : gmap string string;      (* game.i18n *)
  documentTypes : list string;            (* game.system.documentTypes.JournalEntry *)
  typeLabels : option (gmap string string); (* CONFIG.JournalEntry.typeLabels *)
  types : list (string * sheetClass);     (* StoryTeller.types *)
  labels : list (string * string);        (* StoryTeller.labels *)
  activeType : option string;             (* game.StoryTeller.activeType *)
  nextAppId : N;                          (* host application counter *)
  trace : list event
}.

Definition set_pages (p : gmap string Z) (w : world) : world :=
  World p (journal w) (user w) (translations w) (documentTypes w) (typeLabels w)
        (types w) (labels w) (activeType w) (nextAppId w) (trace w).
Definition set_journal (j : gmap string document) (w : world) : world :=
  World (pages w) j (user w) (translations w) (documentTypes w) (typeLabels w)
        (types w) (labels w) (activeType w) (nextAppId w) (trace w).
Definition set_documentTypes (l : list string) (w : world) : world :=
  World (pages w) (journal w) (user w) (translations w) l (typeLabels w)
        (types w) (labels w) (activeType w) (nextAppId w) (trace w).
Definition set_typeLabels (t : option (gmap string string)) (w : world) : world :=
  World (pages w) (journal w) (user w) (translations w) (documentTypes w) t
        (types w) (labels w) (activeType w) (nextAppId w) (trace w).
Definition set_types (t : list (string * sheetClass)) (w : world) : world :=
  World (pages w) (journal w) (user w) (translations w) (documentTypes w) (typeLabels w)
        t (labels w) (activeType w) (nextAppId w) (trace w).
Definition set_labels (l : list (string * string)) (w : world) : world :=
  World (pages w) (journal w) (user w) (translations w) (documentTypes w) (typeLabels w)
        (types w) l (activeType w) (nextAppId w) (trace w).
Definition set_activeType (a : option string) (w : world) : world :=
  World (pages w) (journal w) (user w) (translations w) (documentTypes w) (typeLabels w)
        (types w) (labels w) a (nextAppId w) (trace w).
Definition set_nextAppId (n : N) (w : world) : world :=
  World (pages w) (journal w) (user w) (translations w) (documentTypes w) (typeLabels w)
        (types w) (labels w) (activeType w) n (trace w).
Definition log (e : event) (w : world) : world :=
  World (pages w) (journal w) (user w) (translations w) (documentTypes w) (typeLabels w)
        (types w) (labels w) (activeType w) (nextAppId w) (trace w ++ [e]).

(** ** The monad of module code: state plus uncaught exceptions *)

Inductive outcome (A : Type) :=
  | Returned (a : A)
  | Thrown (e : jsError).
Arguments Returned {A} a.
Arguments Thrown {A} e.

Definition M (A : Type) : Type := world → outcome A * world.

#[global] Instance M_ret : MRet M := λ A a w, (Returned a, w).
#[global] Instance M_bind : MBind M := λ A B f m w,
  match m w with
  | (Returned a, w') => f a w'
  | (Thrown e, w') => (Thrown e, w')
  end.
#[global] Instance M_throw : MThrow jsError M := λ A e w, (Thrown e, w).

Definition get_world : M world := λ w, (Returned w, w).
Definition modify (f : world → world) : M unit := λ w, (Returned tt, f w).

(** State after a call, whatever its outcome. *)
Definition exec {A} (m : M A) (w : world) : world := snd (m w).
(** Host calls made during a call. *)
Definition emitted {A} (m : M A) (w : world) : list event :=
  drop (length (trace w)) (trace (exec m w)).

(** ** Property keys and assignment *)

(** The property key a value stands for in [o[k]]. *)
Definition prop_key (k : jsval) : string :=
  match k with
  | JUndefined => "undefined"
  | JNull => "null"
  | JBool true => "true"
  | JBool false => "false"
  | JNum z => pretty z
  | JStr s => s
  end.

(** [o[k] = v] on a plain object read by key only, for a value [v] that
    is not an object: the key ["__proto__"] reaches the prototype
    accessor, which ignores such a value, and no entry is made. *)
Definition assign {V} (k : string) (v : V) (o : gmap string V) : gmap string V :=
  if decide (k = "__proto__") then o else <[k := v]> o.

(** The number a key stands for when it is an array index: a decimal
    numeral without leading zero, below 2^32 - 1. *)
Definition digit (c : Ascii.ascii) : option N :=
  let n := Ascii.N_of_ascii c in
  if (48 <=? n)%N && (n <=? 57)%N then Some (n - 48)%N else None.

Fixpoint numeral (acc : N) (s : string) : option N :=
  match s with
  | EmptyString => Some acc
  | String c s' => d ← digit c; numeral (10 * acc + d)%N s'
  end.

Definition array_index (k : string) : option N :=
  if decide (k = "") then None
  else if decide (k = "0") then Some 0%N
  else if String.prefix "0" k then None
  else n ← numeral 0 k; if (n <? 4294967295)%N then Some n else None.

(** ** JavaScript objects with enumerable keys *)

Section object.
Context {V : Type}.

(** [Object.keys(o)] *)
Definition keys (o : list (string * V)) : list string := o.*1.

(** [o[k]] *)
Fixpoint get (o : list (string * V)) (k : string) : option V :=
  match o with
  | [] => None
  | (k', v) :: o' => if decide (k' = k) then Some v else get o' k
  end.

(** Replacing the value of a key that is there. *)
Fixpoint update (k : string) (v : V) (o : list (string * V)) : list (string * V) :=
  match o with
  | [] => []
  | (k', v') :: o' =>
      if decide (k' = k) then (k, v) :: o' else (k', v') :: update k v o'
  end.

(** Placing a new array-index key [k], of number [n], after the smaller
    array indices and before everything else. *)
Fixpoint place (n : N) (k : string) (v : V) (o : list (string * V))
    : list (string * V) :=
  match o with
  | [] => [(k, v)]
  | (k', v') :: o' =>
      match array_index k' with
      | Some n' => if (n' <? n)%N then (k', v') :: place n k v o' else (k, v) :: o
      | None => (k, v) :: o
      end
  end.

(** [o[k] = v] for an object [v]: ["__proto__"] sets the prototype and
    adds no key; an existing key keeps its position; a new array index
    goes among the indices, any other new key goes last. *)
Definition put (k : string) (v : V) (o : list (string * V)) : list (string * V) :=
  if decide (k = "__proto__") then o
  else if decide (k ∈ keys o) then update k v o
  else match array_index k with
       | Some n => place n k v o
       | None => o ++ [(k, v)]
       end.
End object.

(** [a.includes(x)] on an array of strings, for [x] possibly [undefined]. *)
Definition includes (a : list string) (x : option string) : bool :=
  match x with
  | Some s => bool_decide (s ∈ a)
  | None => false
  end.

(** The default order of [Array.prototype.sort]. *)
Definition string_le (s1 s2 : string) : Prop := String.leb s1 s2 = true.
#[global] Instance string_le_dec : RelDecision string_le.
Proof. intros s1 s2. unfold string_le. apply _. Defined.
#[global] Instance string_le_total : Total string_le.
Proof. intros s1 s2. apply String.leb_total. Qed.

Definition sort (a : list string) : list string := merge_sort string_le a.

(** ** Host collaborators *)

(** [game.socket.emit(channel, m)] *)
Definition socket_emit (channel : string) (m : message) : M unit :=
  modify (log (Emit channel m)).

(** [game.settings.get('storyteller', 'pages')] *)
Definition settings_get_pages : M (gmap string Z) :=
  w ← get_world; mret (pages w).

(** [game.settings.set('storyteller', 'pages', v)] *)
Definition settings_set_pages (v : gmap string Z) : M unit :=
  modify (λ w, log (SettingsSet v) (set_pages v w)).

(** [game.journal.get(id)]: a reference to the stored document, or
    [undefined]. *)
Definition journal_get (id : string) : M (option string) :=
  modify (log (JournalGet id));;
  w ← get_world;
  mret ((λ _, id) <$> journal w !! id).

(** Dereferencing a fetched document; [undefined] has no properties. *)
Definition deref (story : option string) : M (string * document) :=
  match story with
  | None => mthrow TypeError
  | Some r =>
      w ← get_world;
      match journal w !! r with
      | Some d => mret (r, d)
      | None => mthrow TypeError
      end
  end.

(** [story.show(mode)] *)
Definition doc_show (story : option string) (mode : string) : M unit :=
  '(r, _) ← deref story;
  modify (log (Show r mode)).

(** The class a document's sheet resolves to: its [core.sheetClass]
    flag, else the host default. *)
Definition resolveSheetClass (d : document) : string :=
  default "journals.JournalSheet" (flags d !! ("core", "sheetClass")).

(** [story.sheet]: the cached instance, else a fresh one that is then
    cached. *)
Definition doc_sheet (story : option string) : M sheetInstance :=
  '(r, d) ← deref story;
  match _sheet d with
  | Some s => mret s
  | None =>
      w ← get_world;
      let s := SheetInstance (nextAppId w) r (resolveSheetClass d) in
      modify (λ w, set_nextAppId (N.succ (nextAppId w))
                     (set_journal
                        (<[r := Document (_id d) (Some s) (apps d) (flags d)]>
                           (journal w)) w));;
      mret s
  end.

(** [sheet.render(force)]: the instance registers itself in the [apps]
    of its document. *)
Definition sheet_render (s : sheetInstance) (force : bool) : M unit :=
  modify (λ w,
    log (Render s force)
      (set_journal
         (alter (λ d, Document (_id d) (_sheet d) (<[appId s := s]> (apps d))
                               (flags d)) (object s) (journal w)) w)).

(** [sheet.close()] *)
Definition sheet_close (s : sheetInstance) : M unit :=
  modify (log (Close s)).

(** [doc.setFlag(scope, key, value)] *)
Definition doc_setFlag (r : string) (scope key value : string) : M unit :=
  modify (λ w,
    log (SetFlag r scope key value)
      (set_journal
         (alter (λ d, Document (_id d) (_sheet d) (apps d)
                               (<[(scope, key) := value]> (flags d))) r (journal w)) w)).

(** [game.i18n.localize(s)]: the translation, else the key itself. *)
Definition localize (w : world) (s : string) : string :=
  default s (translations w !! s).

(** [JournalEntry.registerSheet(scope, sheet, {types, makeDefault, label})] *)
Definition registerSheet (scope : string) (sheet : sheetClass)
    (for_types : list string) (makeDefault : bool) (label : option string) : M unit :=
  modify (log (RegisterSheet scope sheet for_types makeDefault label)).

(** [foundry.utils.mergeObject(original, other)] on flat tables: every
    entry of [other] is assigned into [original]. *)
Definition mergeObject (original : gmap string string) (other : list (string * string))
    : gmap string string :=
  foldl (λ m kv, <[kv.1 := kv.2]> m) original other.

(** ** Page directory and broadcast relay *)

(** Lines 97-104. *)
Definition _setPageToOpen (data : message) : M unit :=
  if bool_decide (msg_action data ≠ JStr "setPageToOpen")
     || bool_decide (msg_id data = JStr "")
  then mret tt
  else
    pages ← settings_get_pages;
    let pages := assign (prop_key (msg_id data)) (msg_page data) pages in
    settings_set_pages pages.

(** Lines 107-125.  The defaults [id = ""] and [page = 0] are the values
    a caller passes to omit an argument. *)
Definition showStoryByIDToAll (id : string) (page : Z) : M unit :=
  (if bool_decide (page ≠ 0) then
     socket_emit "module.storyteller" (Message "setPageToOpen" id page);;
     pages ← settings_get_pages;
     let pages := assign id page pages in
     settings_set_pages pages
   else mret tt);;
  story ← journal_get id;
  doc_show story "text".

(** Lines 128-139. *)
Definition showStoryToPlayerOnly (id : string) (page : Z) : M unit :=
  (if bool_decide (page ≠ 0) then
     pages ← settings_get_pages;
     let pages := assign id page pages in
     settings_set_pages pages
   else mret tt);;
  story ← journal_get id;
  s ← doc_sheet story;
  sheet_render s true.

(** ** Type-selection bridge *)

(** Lines 142-144. *)
Definition setVeryDirtyHack (type : string) : M unit :=
  modify (set_activeType (Some type)).

(** Lines 147-149; [None] is the slot before its first write. *)
Definition getVeryDirtyHack : M (option string) :=
  w ← get_world; mret (activeType w).

(** Lines 20-27. *)
Definition getDocumentTypes : M (list (string * sheetClass)) :=
  w ← get_world; mret (types w).
Definition getTypeLabels : M (list (string * string)) :=
  w ← get_world; mret (labels w).

(** Lines 167-176.  [selectForm] is the outcome of the two DOM lookups:
    [None] when the dialog's element is absent, [Some None] when it holds
    no [select], [Some (Some v)] for a [select] whose value is [v]. *)
Definition closeDialog (selectForm : option (option string)) : M unit :=
  setVeryDirtyHack "";;
  match selectForm with
  | Some (Some value) => setVeryDirtyHack value
  | _ => mret tt
  end.

(** Lines 180-188; the hook mutates [options], returned here.  The
    arguments [entry], [data] and [userId] are not read. *)
Definition preCreateJournalEntry (opts : options) : M options :=
  types ← getDocumentTypes;
  currentType ← getVeryDirtyHack;
  if includes (keys types) currentType && bool_decide (currentType ≠ Some "default")
  then mret (Options currentType)
  else mret opts.

(** ** Registration *)

(** The loop of lines 56-66. *)
Fixpoint registerEntries (entries : list (string * sheetClass))
    (labels : list (string * string)) : M unit :=
  match entries with
  | [] => mret tt
  | (key, sheet) :: rest =>
      (if bool_decide (key = "default") then mret tt
       else
         w ← get_world;
         registerSheet "journals" sheet ["base"] false (localize w <$> get labels key));;
      registerEntries rest labels
  end.

(** Lines 55-73. *)
Definition registerObjects (types : list (string * sheetClass))
    (labels : list (string * string)) : M unit :=
  registerEntries types labels;;
  modify (λ w, set_documentTypes (sort (documentTypes w ++ keys types)) w);;
  modify (λ w, set_typeLabels (Some (mergeObject (default ∅ (typeLabels w)) labels)) w).

(** Lines 92-94. *)
Definition _activateSocketListeners : M unit :=
  modify (log (SocketOn "module.storyteller")).

(** Lines 30-37. *)
Definition init : M unit :=
  types ← getDocumentTypes;
  labels ← getTypeLabels;
  registerObjects types labels;;
  _activateSocketListeners.

(** Lines 40-52. *)
Definition registerAddonSheet (s : addon) : M unit :=
  let types' := put (addon_key s) (addon_sheet s) [] in
  let labels' := put (addon_key s) (addon_label s) [] in
  registerObjects types' labels';;
  modify (λ w, set_types (put (addon_key s) (addon_sheet s) (types w)) w);;
  modify (λ w, set_labels (put (addon_key s) (addon_label s) (labels w)) w).

(** ** Sheet swap *)

(** Lines 208-211. *)
Definition postCreateJournalEntry (id : string) : M unit :=
  story ← journal_get id;
  s ← doc_sheet story;
  sheet_render s true.

(** Lines 192-205.  [doc] is the reference of the created document, the
    object stored in the journal under its id. *)
Definition createJournalEntry (doc : string) (opts : options) (userId : string) : M unit :=
  types ← getDocumentTypes;
  w ← get_world;
  if bool_decide (user w ≠ userId) || negb (includes (keys types) (opt_type opts))
  then mret tt
  else
    sheet ← doc_sheet (Some doc);
    modify (λ w, set_journal
      (alter (λ d, Document (_id d) None (apps d) (flags d)) doc (journal w)) w);;
    modify (λ w, set_journal
      (alter (λ d, Document (_id d) (_sheet d) (delete (appId sheet) (apps d)) (flags d))
             doc (journal w)) w);;
    match opt_type opts ≫= get types with
    | None => mthrow TypeError
    | Some c =>
        let cls := name c in
        doc_setFlag doc "core" "sheetClass" ("journals." +:+ cls);;
        sheet_close sheet;;
        '(_, d) ← deref (Some doc);
        postCreateJournalEntry (_id d)
    end.

(** The static tables of lines 7-17. *)
Definition JournalSheet : sheetClass := SheetClass "JournalSheet".
Definition StorySheet : sheetClass := SheetClass "StorySheet".
Definition static_types : list (string * sheetClass) :=
  [("default", JournalSheet); ("story", StorySheet)].
Definition static_labels : list (string * string) :=
  [("story", "STORYTELLER.StoryEntry"); ("default", "STORYTELLER.BaseJournalEntry")].

(** ** Observations on a log *)

(** The broadcasts in a log: channel and message of every [Emit]. *)
Definition emits (es : list event) : list (string * message) :=
  omap (λ e, match e with Emit c m => Some (c, m) | _ => None end) es.

(** The values written to the [pages] setting. *)
Definition writes (es : list event) : list (gmap string Z) :=
  omap (λ e, match e with SettingsSet v => Some v | _ => None end) es.

(** The display views shown: document and mode of every [Show]. *)
Definition shows (es : list event) : list (string * string) :=
  omap (λ e, match e with Show r mode => Some (r, mode) | _ => None end) es.

(** The sheets rendered. *)
Definition renders (es : list event) : list (sheetInstance * bool) :=
  omap (λ e, match e with Render s f => Some (s, f) | _ => None end) es.

(** The two statements [pages[id] = page; game.settings.set(..., pages)]
    as one state change. *)
Definition setPage (id : string) (page : Z) (w : world) : world :=
  log (SettingsSet (assign id page (pages w))) (set_pages (assign id page (pages w)) w).

(** ** Closed forms used by the proofs *)

(** The sheet [story.sheet] resolves to for a stored document. *)
Definition sheet_of (w : world) (id : string) (d : document) : sheetInstance :=
  default (SheetInstance (nextAppId w) id (resolveSheetClass d)) (_sheet d).

(** Appending several host calls to the log at once. *)
Definition log_all (es : list event) (w : world) : world :=
  World (pages w) (journal w) (user w) (translations w) (documentTypes w) (typeLabels w)
        (types w) (labels w) (activeType w) (nextAppId w) (trace w ++ es).

(** The registration call the loop makes for one entry. *)
Definition registration_of (w : world) (lbls : list (string * string))
    (entry : string * sheetClass) : event :=
  RegisterSheet "journals" entry.2 ["base"] false (localize w <$> get lbls entry.1).

(** The entries the loop does not skip. *)
Definition registered_entries (tys : list (string * sheetClass))
    : list (string * sheetClass) :=
  filter (λ entry, entry.1 ≠ "default") tys.

(** A computation that leaves the page directory as it found it. *)
Definition keeps_pages {A} (m : M A) : Prop :=
  ∀ w, pages (snd (m w)) = pages w.

(** ** The module as a whole: every entry point a host can invoke

    [registerSettings] and [changeLinkedImageSrc] only declare settings
    to the host and restyle the page; they have no counterpart in
    [world]. *)

Inductive call :=
  | CallInit
  | CallRegisterAddonSheet (s : addon)
  | CallSetPageToOpen (data : message)
  | CallShowStoryByIDToAll (id : string) (page : Z)
  | CallShowStoryToPlayerOnly (id : string) (page : Z)
  | CallSetVeryDirtyHack (type : string)
  | CallGetVeryDirtyHack
  | CallCloseDialog (selectForm : option (option string))
  | CallPreCreateJournalEntry (opts : options)
  | CallCreateJournalEntry (doc : string) (opts : options) (userId : string)
  | CallPostCreateJournalEntry (id : string).

Definition run_call (c : call) (w : world) : world :=
  match c with
  | CallInit => exec init w
  | CallRegisterAddonSheet s => exec (registerAddonSheet s) w
  | CallSetPageToOpen data => exec (_setPageToOpen data) w
  | CallShowStoryByIDToAll id page => exec (showStoryByIDToAll id page) w
  | CallShowStoryToPlayerOnly id page => exec (showStoryToPlayerOnly id page) w
  | CallSetVeryDirtyHack type => exec (setVeryDirtyHack type) w
  | CallGetVeryDirtyHack => exec getVeryDirtyHack w
  | CallCloseDialog sel => exec (closeDialog sel) w
  | CallPreCreateJournalEntry opts => exec (preCreateJournalEntry opts) w
  | CallCreateJournalEntry doc opts userId => exec (createJournalEntry doc opts userId) w
  | CallPostCreateJournalEntry id => exec (postCreateJournalEntry id) w
  end.

(** A session: calls served one after the other. *)
Definition run_calls (cs : list call) (w : world) : world :=
  foldl (λ w c, run_call c w) w cs.

(** ** A small world to evaluate the code on *)

Definition demo_doc : document := Document "j1" None ∅ ∅.

(** One journal document ["j1"], user ["u1"], the host knowing only the
    type ["base"], nothing registered or shown yet. *)
Definition demo_world : world :=
  World ∅ {["j1" := demo_doc]} "u1" ∅ ["base"] None
        static_types static_labels None 7%N [].

(** ** Relations between the state before and after a call *)

(** A computation whose final state is always related to its initial
    one. *)
Definition preserves (R : relation world) {A} (m : M A) : Prop :=
  ∀ w, R w (snd (m w)).

(** The pending type slot is the same. *)
Definition same_slot (w w' : world) : Prop := activeType w' = activeType w.

(** The keys of the host's type-label table. *)
Definition label_keys (w : world) : gset string := dom (default ∅ (typeLabels w)).

(** Nothing registered has been lost: every key of the module's two
    tables, every known type and every labelled type is still there. *)
Definition registry_le (w w' : world) : Prop :=
  keys (types w) ⊆ keys (types w') ∧
  keys (labels w) ⊆ keys (labels w') ∧
  documentTypes w ⊆ documentTypes w' ∧
  label_keys w ⊆ label_keys w'.

(** The entry points that write the pending type slot. *)
Definition writes_slot (c : call) : bool :=
  match c with
  | CallSetVeryDirtyHack _ | CallCloseDialog _ => true
  | _ => false
  end.

(** The value the [closeDialog] hook leaves in the slot. *)
Definition selected (selectForm : option (option string)) : string :=
  match selectForm with
  | Some (Some value) => value
  | _ => ""
  end.

(** * Proofs *)

Ltac unfold_M :=
  unfold doc_show, doc_sheet, deref, journal_get, socket_emit, settings_get_pages,
    settings_set_pages, sheet_render, sheet_close, doc_setFlag, registerSheet,
    getDocumentTypes, getTypeLabels, getVeryDirtyHack, setVeryDirtyHack,
    mbind, M_bind, mret, M_ret, mthrow, M_throw, modify, get_world, exec in *.

Lemma emitted_app {A} (m : M A) (w : world) (es : list event) :
  trace (snd (m w)) = trace w ++ es → emitted m w = es.
Proof.
  intros H. unfold emitted, exec. rewrite H. by rewrite drop_app_length.
Qed.

(** ** Assignment on a table read by key *)

Lemma assign_lookup_eq {V} (k : string) (v : V) (o : gmap string V) :
  k ≠ "__proto__" → assign k v o !! k = Some v.
Proof. intros H. unfold assign. rewrite decide_False by done. apply lookup_insert_eq. Qed.

Lemma assign_lookup_ne {V} (k k' : string) (v : V) (o : gmap string V) :
  k' ≠ k → assign k v o !! k' = o !! k'.
Proof.
  intros H. unfold assign. case_decide; [done|]. by apply lookup_insert_ne.
Qed.

Lemma assign_proto {V} (v : V) (o : gmap string V) : assign "__proto__" v o = o.
Proof. reflexivity. Qed.


Lemma assign_assign {V} (k : string) (v v' : V) (o : gmap string V) :
  assign k v' (assign k v o) = assign k v' o.
Proof. unfold assign. case_decide; [done|]. apply insert_insert_eq. Qed.


(** ** The three page-setting operations in closed form *)

Lemma showStoryByIDToAll_run (id : string) (page : Z) (w : world) :
  showStoryByIDToAll id page w =
    let w1 := if bool_decide (page ≠ 0)
              then setPage id page
                     (log (Emit "module.storyteller" (Message "setPageToOpen" id page)) w)
              else w in
    let w2 := log (JournalGet id) w1 in
    match journal w !! id with
    | Some _ => (Returned tt, log (Show id "text") w2)
    | None => (Thrown TypeError, w2)
    end.
Proof.
  unfold showStoryByIDToAll. unfold_M.
  case_bool_decide; cbn; destruct (journal w !! id) eqn:E; cbn; rewrite ?E; cbn;
    reflexivity.
Qed.

Lemma showStoryToPlayerOnly_run (id : string) (page : Z) (w : world) :
  showStoryToPlayerOnly id page w =
    let w1 := if bool_decide (page ≠ 0) then setPage id page w else w in
    let w2 := log (JournalGet id) w1 in
    match journal w !! id with
    | Some d =>
        match _sheet d with
        | Some s => (Returned tt, exec (sheet_render s true) w2)
        | None =>
            let s := SheetInstance (nextAppId w) id (resolveSheetClass d) in
            (Returned tt,
             exec (sheet_render s true)
               (set_nextAppId (N.succ (nextAppId w))
                  (set_journal
                     (<[id := Document (_id d) (Some s) (apps d) (flags d)]> (journal w))
                     w2)))
        end
    | None => (Thrown TypeError, w2)
    end.
Proof.
  unfold showStoryToPlayerOnly. unfold_M.
  case_bool_decide; cbn; destruct (journal w !! id) as [d|] eqn:E; cbn; rewrite ?E; cbn;
    try reflexivity; destruct (_sheet d); reflexivity.
Qed.

Lemma _setPageToOpen_run (data : message) (w : world) :
  _setPageToOpen data w =
    (Returned tt,
     if bool_decide (msg_action data = "setPageToOpen" ∧ msg_id data ≠ "")
     then setPage (prop_key (msg_id data)) (msg_page data) w else w).
Proof.
  unfold _setPageToOpen. unfold_M.
  repeat case_bool_decide; cbn; try reflexivity; tauto.
Qed.

(** [showStoryByIDToAll] on an id the journal does not hold: the fetch
    yields [undefined] and the render step raises, after the broadcast
    and the directory update. *)
Lemma showStoryByIDToAll_missing (id : string) (page : Z) (w : world) :
  journal w !! id = None →
  fst (showStoryByIDToAll id page w) = Thrown TypeError ∧
  shows (emitted (showStoryByIDToAll id page) w) = [].
Proof.
  intros E. rewrite (emitted_app _ w
    ((if bool_decide (page ≠ 0)
      then [Emit "module.storyteller" (Message "setPageToOpen" id page);
            SettingsSet (assign id page (pages w))]
      else []) ++ [JournalGet id])).
  - rewrite showStoryByIDToAll_run, E. cbn. split; [done|]. by case_bool_decide.
  - rewrite showStoryByIDToAll_run, E. cbn. case_bool_decide; cbn; [|done].
    by rewrite <- !(assoc_L (++)).
Qed.

Lemma showStoryByIDToAll_emitted (id : string) (page : Z) (w : world) :
  emitted (showStoryByIDToAll id page) w =
    (if bool_decide (page ≠ 0)
     then [Emit "module.storyteller" (Message "setPageToOpen" id page);
           SettingsSet (assign id page (pages w))]
     else [])
    ++ JournalGet id ::
       match journal w !! id with Some _ => [Show id "text"] | None => [] end.
Proof.
  apply emitted_app. rewrite showStoryByIDToAll_run. cbn.
  destruct (journal w !! id); case_bool_decide; cbn;
    rewrite <- ?(assoc_L (++)); reflexivity.
Qed.

Lemma showStoryByIDToAll_pages (id : string) (page : Z) (w : world) :
  pages (exec (showStoryByIDToAll id page) w) =
    if bool_decide (page ≠ 0) then assign id page (pages w) else pages w.
Proof.
  unfold exec. rewrite showStoryByIDToAll_run. cbn.
  destruct (journal w !! id); case_bool_decide; reflexivity.
Qed.

Lemma showStoryToPlayerOnly_emitted (id : string) (page : Z) (w : world) :
  emitted (showStoryToPlayerOnly id page) w =
    (if bool_decide (page ≠ 0) then [SettingsSet (assign id page (pages w))] else [])
    ++ JournalGet id ::
       match journal w !! id with
       | Some d => [Render (sheet_of w id d) true]
       | None => []
       end.
Proof.
  apply emitted_app. rewrite showStoryToPlayerOnly_run. cbn.
  destruct (journal w !! id) as [d|]; [unfold sheet_of; destruct (_sheet d)|];
    case_bool_decide; cbn; rewrite <- ?(assoc_L (++)); reflexivity.
Qed.

Lemma showStoryToPlayerOnly_pages (id : string) (page : Z) (w : world) :
  pages (exec (showStoryToPlayerOnly id page) w) =
    if bool_decide (page ≠ 0) then assign id page (pages w) else pages w.
Proof.
  unfold exec. rewrite showStoryToPlayerOnly_run. cbn.
  destruct (journal w !! id) as [d|]; [destruct (_sheet d)|];
    case_bool_decide; reflexivity.
Qed.


Lemma _setPageToOpen_pages (data : message) (w : world) :
  pages (exec (_setPageToOpen data) w) =
    if bool_decide (msg_action data = "setPageToOpen" ∧ msg_id data ≠ "")
    then assign (prop_key (msg_id data)) (msg_page data) (pages w) else pages w.
Proof.
  unfold exec. rewrite _setPageToOpen_run. cbn. case_bool_decide; reflexivity.
Qed.

(** ** Broadcast relay *)

(** C1, as the code has it.  For every id [d] and page [p]: when [p]
    is not 0, [showStoryByIDToAll d p] emits exactly one broadcast, the
    message [{action: "setPageToOpen", id: d, page: p}] on the channel,
    and the page directory then maps [d] to [p], unless [d] is
    ["__proto__"], for which the directory is left as it was; for any
    [p] the call then looks [d] up in the journal and, when the
    document is there, shows its ["text"] view once, as its last host
    call, and returns; when it is not, the call raises a [TypeError] at
    the render step and shows nothing. *)
Theorem showStoryByIDToAll_broadcasts (d : string) (p : Z) (w : world) :
  (p ≠ 0 →
     emits (emitted (showStoryByIDToAll d p) w)
       = [("module.storyteller", Message "setPageToOpen" d p)] ∧
     (d ≠ "__proto__" → pages (exec (showStoryByIDToAll d p) w) !! d = Some p) ∧
     (d = "__proto__" → pages (exec (showStoryByIDToAll d p) w) = pages w)) ∧
  JournalGet d ∈ emitted (showStoryByIDToAll d p) w ∧
  match journal w !! d with
  | Some _ =>
      fst (showStoryByIDToAll d p w) = Returned tt ∧
      shows (emitted (showStoryByIDToAll d p) w) = [(d, "text")] ∧
      ∃ pre, emitted (showStoryByIDToAll d p) w = pre ++ [JournalGet d; Show d "text"]
  | None =>
      fst (showStoryByIDToAll d p w) = Thrown TypeError ∧
      shows (emitted (showStoryByIDToAll d p) w) = []
  end.
Proof.
  rewrite showStoryByIDToAll_emitted, showStoryByIDToAll_pages, showStoryByIDToAll_run.
  split; [|split].
  - intros Hp. rewrite bool_decide_true by done. split; [|split].
    + cbn. by destruct (journal w !! d).
    + apply assign_lookup_eq.
    + intros ->. apply assign_proto.
  - apply elem_of_app. right. apply list_elem_of_here.
  - cbn. destruct (journal w !! d); cbn.
    + split; [done|]. split; [by case_bool_decide|]. eexists. reflexivity.
    + split; [done|]. by case_bool_decide.
Qed.

Lemma showStoryByIDToAll_broadcasts_witness :
  (3 ≠ 0 ∧ "j1" ≠ "__proto__") ∧
  emits (emitted (showStoryByIDToAll "j1" 3) demo_world)
    = [("module.storyteller", Message "setPageToOpen" "j1" 3)] ∧
  pages (exec (showStoryByIDToAll "j1" 3) demo_world) !! "j1" = Some 3.
Proof.
  assert (Hp : 3 ≠ 0) by lia.
  assert (Hd : "j1" ≠ "__proto__") by discriminate.
  destruct (showStoryByIDToAll_broadcasts "j1" 3 demo_world) as [H1 _].
  destruct (H1 Hp) as (He & Hs & _).
  split; [split; [exact Hp | exact Hd]|]. split; [exact He | exact (Hs Hd)].
Defined.

(** C1 as stated fails at the id ["__proto__"]: with page 3 the message
    is broadcast, but the page directory gets no entry for the id; the
    journal holding no such document, nothing is shown either and the
    call raises. *)
Lemma showStoryByIDToAll_proto_no_entry :
  3 ≠ 0 ∧
  emits (emitted (showStoryByIDToAll "__proto__" 3) demo_world)
    = [("module.storyteller", Message "setPageToOpen" "__proto__" 3)] ∧
  pages (exec (showStoryByIDToAll "__proto__" 3) demo_world) !! "__proto__" = None ∧
  fst (showStoryByIDToAll "__proto__" 3 demo_world) = Thrown TypeError ∧
  shows (emitted (showStoryByIDToAll "__proto__" 3) demo_world) = [].
Proof. split; [lia|]. repeat split. Qed.

(** C7.  For every id [d], [showStoryByIDToAll d 0] leaves the page
    directory as it was and emits nothing on the channel (nor writes the
    setting); it still looks [d] up in the journal and, when the
    document is there, shows its ["text"] view; when it is not, the
    attempt ends in a [TypeError] at the render step. *)
Theorem showStoryByIDToAll_zero (d : string) (w : world) :
  pages (exec (showStoryByIDToAll d 0) w) = pages w ∧
  emits (emitted (showStoryByIDToAll d 0) w) = [] ∧
  writes (emitted (showStoryByIDToAll d 0) w) = [] ∧
  JournalGet d ∈ emitted (showStoryByIDToAll d 0) w ∧
  match journal w !! d with
  | Some _ =>
      fst (showStoryByIDToAll d 0 w) = Returned tt ∧
      shows (emitted (showStoryByIDToAll d 0) w) = [(d, "text")]
  | None => fst (showStoryByIDToAll d 0 w) = Thrown TypeError
  end.
Proof.
  rewrite showStoryByIDToAll_emitted, showStoryByIDToAll_pages, showStoryByIDToAll_run.
  cbn. destruct (journal w !! d); cbn; repeat split; apply list_elem_of_here.
Qed.

(** ** Remote handler *)




(** ** Local-only display *)

(** C8, as the code has it.  For every id [d] and page [p],
    [showStoryToPlayerOnly d p] emits nothing on the channel; when [p]
    is not 0 it sets the page directory entry of [d] to [p], unless [d]
    is ["__proto__"], for which the directory is left as it was, and it
    changes no other entry; for any [p], when [d] names a journal
    document it returns after rendering that document's sheet, once;
    when it does not, it raises a [TypeError] and renders nothing. *)
Theorem showStoryToPlayerOnly_local (d : string) (p : Z) (w : world) :
  emits (emitted (showStoryToPlayerOnly d p) w) = [] ∧
  (p ≠ 0 →
     (d ≠ "__proto__" → pages (exec (showStoryToPlayerOnly d p) w) !! d = Some p) ∧
     (d = "__proto__" → pages (exec (showStoryToPlayerOnly d p) w) = pages w) ∧
     ∀ k, k ≠ d → pages (exec (showStoryToPlayerOnly d p) w) !! k = pages w !! k) ∧
  match journal w !! d with
  | Some doc =>
      fst (showStoryToPlayerOnly d p w) = Returned tt ∧
      renders (emitted (showStoryToPlayerOnly d p) w) = [(sheet_of w d doc, true)]
  | None =>
      fst (showStoryToPlayerOnly d p w) = Thrown TypeError ∧
      renders (emitted (showStoryToPlayerOnly d p) w) = []
  end.
Proof.
  rewrite showStoryToPlayerOnly_emitted, showStoryToPlayerOnly_pages.
  split; [|split].
  - destruct (journal w !! d); by case_bool_decide.
  - intros Hp. rewrite bool_decide_true by done. split; [|split].
    + apply assign_lookup_eq.
    + intros ->. apply assign_proto.
    + intros k Hk. by apply assign_lookup_ne.
  - rewrite showStoryToPlayerOnly_run. cbn.
    destruct (journal w !! d) as [doc|]; cbn.
    + split; [by destruct (_sheet doc) | by case_bool_decide].
    + split; [done | by case_bool_decide].
Qed.

Lemma showStoryToPlayerOnly_local_witness :
  (5 ≠ 0 ∧ "j1" ≠ "__proto__") ∧
  pages (exec (showStoryToPlayerOnly "j1" 5) demo_world) !! "j1" = Some 5.
Proof.
  assert (Hp : 5 ≠ 0) by lia.
  assert (Hd : "j1" ≠ "__proto__") by discriminate.
  destruct (showStoryToPlayerOnly_local "j1" 5 demo_world) as (_ & H1 & _).
  destruct (H1 Hp) as (Hs & _).
  split; [split; [exact Hp | exact Hd] | exact (Hs Hd)].
Defined.

(** C8 as stated fails at the id ["__proto__"]: with page 5 the page
    directory gets no entry for the id; the journal holding no such
    document, nothing is rendered either and the call raises. *)
Lemma showStoryToPlayerOnly_proto_no_entry :
  5 ≠ 0 ∧
  pages (exec (showStoryToPlayerOnly "__proto__" 5) demo_world) !! "__proto__" = None ∧
  fst (showStoryToPlayerOnly "__proto__" 5 demo_world) = Thrown TypeError ∧
  renders (emitted (showStoryToPlayerOnly "__proto__" 5) demo_world) = [].
Proof. split; [lia|]. repeat split. Qed.

(** [showStoryToPlayerOnly] on an id the journal does not hold raises at
    the render step, after the directory update. *)
Lemma showStoryToPlayerOnly_missing (id : string) (page : Z) (w : world) :
  journal w !! id = None →
  fst (showStoryToPlayerOnly id page w) = Thrown TypeError ∧
  renders (emitted (showStoryToPlayerOnly id page) w) = [].
Proof.
  intros E. rewrite showStoryToPlayerOnly_emitted, showStoryToPlayerOnly_run, E. cbn.
  split; [done|]. by case_bool_decide.
Qed.

(** ** Empty ids *)

(** C10.  The sending operations do not validate the id: for every page
    [p] other than 0, both [showStoryByIDToAll "" p] and
    [showStoryToPlayerOnly "" p] leave the page directory with the entry
    [""] set to [p], whereas the remote handler leaves the state
    unchanged on every ["setPageToOpen"] message whose id is [""]. *)
Theorem empty_id_not_validated (p : Z) (w : world) :
  p ≠ 0 →
  pages (exec (showStoryByIDToAll "" p) w) !! "" = Some p ∧
  pages (exec (showStoryToPlayerOnly "" p) w) !! "" = Some p ∧
  ∀ q, exec (_setPageToOpen (Message "setPageToOpen" "" q)) w = w.
Proof.
  intros Hp. rewrite showStoryByIDToAll_pages, showStoryToPlayerOnly_pages.
  rewrite bool_decide_true by done.
  split; [apply lookup_insert_eq|]. split; [apply lookup_insert_eq|].
  intros q. unfold exec. rewrite _setPageToOpen_run. cbn.
  rewrite bool_decide_false; [done | tauto].
Qed.

Lemma empty_id_not_validated_witness :
  2 ≠ 0 ∧
  pages (exec (showStoryByIDToAll "" 2) demo_world) !! "" = Some 2 ∧
  pages (exec (showStoryToPlayerOnly "" 2) demo_world) !! "" = Some 2 ∧
  exec (_setPageToOpen (Message "setPageToOpen" "" 2)) demo_world = demo_world.
Proof.
  assert (Hp : 2 ≠ 0) by lia.
  destruct (empty_id_not_validated 2 demo_world Hp) as (H1 & H2 & H3).
  split; [exact Hp|]. split; [exact H1|]. split; [exact H2 | exact (H3 2)].
Defined.

(** ** Calls that do not touch the page directory *)

Lemma keeps_ret {A} (a : A) : keeps_pages (mret a).
Proof. by intros w. Qed.

Lemma keeps_throw {A} (e : jsError) : keeps_pages (mthrow (A := A) e).
Proof. by intros w. Qed.

Lemma keeps_get_world : keeps_pages get_world.
Proof. by intros w. Qed.

Lemma keeps_modify (f : world → world) :
  (∀ w, pages (f w) = pages w) → keeps_pages (modify f).
Proof. intros H w. apply H. Qed.

Lemma keeps_bind {A B} (m : M A) (f : A → M B) :
  keeps_pages m → (∀ a, keeps_pages (f a)) → keeps_pages (m ≫= f).
Proof.
  intros Hm Hf w. unfold mbind, M_bind. specialize (Hm w).
  destruct (m w) as [[a|e] w']; cbn in *; [|done].
  by rewrite Hf.
Qed.

Ltac keeps_step :=
  first
    [ apply keeps_ret | apply keeps_throw | apply keeps_get_world
    | apply keeps_modify; intros; reflexivity
    | apply keeps_bind; [|intros ?]
    | match goal with
      | |- keeps_pages (if ?b then _ else _) => destruct b
      | |- keeps_pages (match ?x with _ => _ end) => destruct x
      | |- keeps_pages (let '(_, _) := ?x in _) => destruct x
      end ].

Lemma keeps_journal_get (id : string) : keeps_pages (journal_get id).
Proof. unfold journal_get. repeat keeps_step. Qed.

Lemma keeps_deref (story : option string) : keeps_pages (deref story).
Proof. unfold deref. repeat keeps_step. Qed.

Lemma keeps_doc_sheet (story : option string) : keeps_pages (doc_sheet story).
Proof.
  unfold doc_sheet. apply keeps_bind; [apply keeps_deref | intros [r d]].
  repeat keeps_step.
Qed.

Lemma keeps_sheet_render (s : sheetInstance) (force : bool) :
  keeps_pages (sheet_render s force).
Proof. unfold sheet_render. repeat keeps_step. Qed.

Lemma keeps_postCreateJournalEntry (id : string) :
  keeps_pages (postCreateJournalEntry id).
Proof.
  unfold postCreateJournalEntry.
  apply keeps_bind; [apply keeps_journal_get | intros story].
  apply keeps_bind; [apply keeps_doc_sheet | intros s]. apply keeps_sheet_render.
Qed.







Lemma keeps_createJournalEntry (doc : string) (opts : options) (userId : string) :
  keeps_pages (createJournalEntry doc opts userId).
Proof.
  unfold createJournalEntry, getDocumentTypes.
  do 2 (apply keeps_bind; [repeat keeps_step | intros ?]).
  keeps_step; [apply keeps_ret|].
  apply keeps_bind; [apply keeps_doc_sheet | intros sheet].
  do 2 (apply keeps_bind; [repeat keeps_step | intros _]).
  keeps_step; [|apply keeps_throw].
  unfold doc_setFlag, sheet_close.
  do 2 (apply keeps_bind; [repeat keeps_step | intros _]).
  apply keeps_bind; [apply keeps_deref | intros [r d']].
  apply keeps_postCreateJournalEntry.
Qed.



(** ** Page directory invariant *)




(** ** Type-selection bridge *)

Lemma closeDialog_stores (value : string) (w : world) :
  activeType (exec (closeDialog (Some (Some value))) w) = Some value.
Proof. reflexivity. Qed.

Lemma closeDialog_clears (w : world) :
  activeType (exec (closeDialog None) w) = Some "" ∧
  activeType (exec (closeDialog (Some None)) w) = Some "".
Proof. split; reflexivity. Qed.

(** C6.  At pre-creation, when the pending slot holds a value that is a
    key of the registered types and is not ["default"], the returned
    options carry that value as their type; when the slot holds
    ["default"], a value that is no key of the registered types, or
    nothing yet, the options come back as they were.  The hook changes
    nothing else. *)
Theorem preCreateJournalEntry_injects (opts : options) (w : world) :
  (∀ t, activeType w = Some t → t ∈ keys (types w) → t ≠ "default" →
     fst (preCreateJournalEntry opts w) = Returned (Options (Some t))) ∧
  (activeType w = Some "default" → fst (preCreateJournalEntry opts w) = Returned opts) ∧
  (∀ t, activeType w = Some t → t ∉ keys (types w) →
     fst (preCreateJournalEntry opts w) = Returned opts) ∧
  (activeType w = None → fst (preCreateJournalEntry opts w) = Returned opts) ∧
  exec (preCreateJournalEntry opts) w = w.
Proof.
  unfold preCreateJournalEntry. unfold_M. cbn.
  repeat split.
  - intros t -> Hin Hne. cbn. rewrite bool_decide_true by done.
    rewrite bool_decide_true by congruence. done.
  - intros ->. cbn. rewrite (bool_decide_false (_ ≠ _)) by tauto.
    by rewrite andb_false_r.
  - intros t -> Hin. cbn. by rewrite bool_decide_false by done.
  - by intros ->.
  - by destruct (_ && _).
Qed.

Lemma preCreateJournalEntry_injects_witness :
  fst (preCreateJournalEntry (Options None)
         (exec (closeDialog (Some (Some "story"))) demo_world))
    = Returned (Options (Some "story")) ∧
  fst (preCreateJournalEntry (Options None)
         (exec (closeDialog (Some (Some "default"))) demo_world))
    = Returned (Options None) ∧
  fst (preCreateJournalEntry (Options None)
         (exec (closeDialog (Some (Some "fullscreen"))) demo_world))
    = Returned (Options None).
Proof.
  split; [|split].
  - apply (preCreateJournalEntry_injects (Options None)
             (exec (closeDialog (Some (Some "story"))) demo_world));
      [reflexivity | | discriminate].
    cbn. apply list_elem_of_further, list_elem_of_here.
  - destruct (preCreateJournalEntry_injects (Options None)
             (exec (closeDialog (Some (Some "default"))) demo_world))
      as (_ & H & _).
    apply H. reflexivity.
  - destruct (preCreateJournalEntry_injects (Options None)
             (exec (closeDialog (Some (Some "fullscreen"))) demo_world))
      as (_ & _ & H & _).
    apply (H "fullscreen"); [reflexivity|].
    cbn. intros Hin. apply list_elem_of_In in Hin. cbn in Hin.
    destruct Hin as [H1 | [H1 | []]]; discriminate H1.
Defined.

(** ** Registration in closed form *)

Lemma log_all_nil (w : world) : log_all [] w = w.
Proof. destruct w. unfold log_all. cbn. by rewrite (right_id_L [] (++)). Qed.

Lemma log_all_log (e : event) (es : list event) (w : world) :
  log_all es (log e w) = log_all (e :: es) w.
Proof. unfold log_all, log. cbn. by rewrite <- (assoc_L (++)). Qed.

Lemma registerEntries_run (entries : list (string * sheetClass))
    (lbls : list (string * string)) (w : world) :
  registerEntries entries lbls w =
    (Returned tt, log_all (registration_of w lbls <$> registered_entries entries) w).
Proof.
  revert w. induction entries as [|[key sheet] rest IH]; intros w.
  - cbn. by rewrite log_all_nil.
  - cbn [registerEntries]. unfold registered_entries. rewrite filter_cons. cbn [fst].
    unfold_M. case_bool_decide as Hk.
    + rewrite decide_False by (intros H; by apply H). apply IH.
    + rewrite decide_True by done. rewrite IH. cbn. by rewrite log_all_log.
Qed.

Lemma registerObjects_run (tys : list (string * sheetClass))
    (lbls : list (string * string)) (w : world) :
  registerObjects tys lbls w =
    (Returned tt,
     set_typeLabels (Some (mergeObject (default ∅ (typeLabels w)) lbls))
       (set_documentTypes (sort (documentTypes w ++ keys tys))
          (log_all (registration_of w lbls <$> registered_entries tys) w))).
Proof.
  unfold registerObjects. unfold mbind, M_bind. rewrite registerEntries_run.
  reflexivity.
Qed.

Lemma registerObjects_emitted (tys : list (string * sheetClass))
    (lbls : list (string * string)) (w : world) :
  emitted (registerObjects tys lbls) w = registration_of w lbls <$> registered_entries tys.
Proof. apply emitted_app. by rewrite registerObjects_run. Qed.

(** ** The host's merge of flat tables *)

Lemma mergeObject_union (m : gmap string string) (l : list (string * string)) :
  mergeObject m l = list_to_map (reverse l) ∪ m.
Proof.
  unfold mergeObject. revert m. induction l as [|[k v] l IH]; intros m.
  - cbn. by rewrite (left_id_L ∅ (∪)).
  - cbn [foldl fst snd]. rewrite IH, reverse_cons, list_to_map_app.
    rewrite <- (assoc_L (∪)). f_equal. cbn.
    by rewrite insert_empty, <- insert_union_singleton_l.
Qed.

Lemma mergeObject_idemp (m : gmap string string) (l : list (string * string)) :
  mergeObject (mergeObject m l) l = mergeObject m l.
Proof.
  rewrite !mergeObject_union. by rewrite (assoc_L (∪)), (idemp_L (∪)).
Qed.

Lemma mergeObject_keys (m : gmap string string) (l : list (string * string))
    (k : string) :
  k ∈ keys l → is_Some (mergeObject m l !! k).
Proof.
  intros Hk. rewrite mergeObject_union. apply lookup_union_is_Some. left.
  apply elem_of_dom. rewrite dom_list_to_map_L. apply elem_of_list_to_set.
  unfold keys in Hk. by rewrite fmap_reverse, elem_of_reverse.
Qed.

Lemma sort_elem_of (k : string) (l : list string) : k ∈ sort l ↔ k ∈ l.
Proof. unfold sort. by rewrite merge_sort_Permutation. Qed.

(** ** Registration *)

(** C5, as the code has it.  In every run of the registration step the
    sheet registrations are exactly those of the entries whose key is
    not ["default"], in enumeration order, so none is made for
    ["default"]; yet when ["default"] is a key of the type set it is in
    the host's known-type list afterwards, and when it is a key of the
    label set the host's type-label table has an entry for it
    afterwards. *)
Theorem registerObjects_default (tys : list (string * sheetClass))
    (lbls : list (string * string)) (w : world) :
  emitted (registerObjects tys lbls) w
    = registration_of w lbls <$> filter (λ entry, entry.1 ≠ "default") tys ∧
  ("default" ∈ keys tys →
     "default" ∈ documentTypes (exec (registerObjects tys lbls) w)) ∧
  ("default" ∈ keys lbls →
     ∃ t, typeLabels (exec (registerObjects tys lbls) w) = Some t ∧
          is_Some (t !! "default")).
Proof.
  rewrite registerObjects_emitted. unfold exec. rewrite registerObjects_run. cbn.
  split; [done|]. split.
  - intros Hk. apply sort_elem_of, elem_of_app. by right.
  - intros Hk. eexists. split; [reflexivity|]. by apply mergeObject_keys.
Qed.

Lemma registerObjects_default_witness :
  emitted (registerObjects static_types static_labels) demo_world
    = [RegisterSheet "journals" StorySheet ["base"] false (Some "STORYTELLER.StoryEntry")] ∧
  "default" ∈ documentTypes (exec (registerObjects static_types static_labels) demo_world).
Proof.
  destruct (registerObjects_default static_types static_labels demo_world)
    as (H1 & H2 & _).
  split.
  - rewrite H1. reflexivity.
  - apply H2. apply list_elem_of_here.
Defined.

(** C5 as stated fails: one run of the registration step on the
    module's own tables, from a host that knows only ["base"] and has no
    label table, puts ["default"] in the known-type list and a
    ["default"] entry in the type-label table. *)
Lemma registerObjects_default_in_tables :
  ("default" ∉ documentTypes demo_world) ∧
  typeLabels demo_world = None ∧
  "default" ∈ documentTypes (exec (registerObjects static_types static_labels) demo_world) ∧
  (typeLabels (exec (registerObjects static_types static_labels) demo_world)
     ≫= (.!! "default")) = Some "STORYTELLER.BaseJournalEntry".
Proof.
  split; [|split; [|split]].
  - cbn. intros H. apply list_elem_of_In in H. cbn in H.
    destruct H as [H | []]. discriminate H.
  - reflexivity.
  - change (documentTypes (exec (registerObjects static_types static_labels) demo_world))
      with (sort ["base"; "default"; "story"]).
    apply sort_elem_of. apply list_elem_of_further, list_elem_of_here.
  - vm_compute. reflexivity.
Qed.

(** C4, as the code has it.  Running the registration step twice with
    the same type and label sets leaves the type-label table as one run
    leaves it, a keyed table whose keys are pairwise distinct; the
    known-type list is sorted, and is a rearrangement of the list before
    the two runs followed by the type keys twice: nothing is
    deduplicated. *)
Theorem registerObjects_twice (tys : list (string * sheetClass))
    (lbls : list (string * string)) (w : world) :
  let w1 := exec (registerObjects tys lbls) w in
  let w2 := exec (registerObjects tys lbls) w1 in
  typeLabels w2 = typeLabels w1 ∧
  (∀ t, typeLabels w2 = Some t → NoDup (map_to_list t).*1) ∧
  Sorted string_le (documentTypes w2) ∧
  documentTypes w2 ≡ₚ documentTypes w ++ keys tys ++ keys tys.
Proof.
  unfold exec. rewrite !registerObjects_run. cbn.
  split; [by rewrite mergeObject_idemp|]. split; [|split].
  - intros t _. apply NoDup_fst_map_to_list.
  - apply Sorted_merge_sort. apply _.
  - unfold sort. rewrite !merge_sort_Permutation.
    by rewrite <- (assoc_L (++)).
Qed.

(** C4 as stated fails: after two runs of the registration step on the
    module's own tables the known-type list holds ["default"] and
    ["story"] twice each. *)
Lemma registerObjects_twice_duplicates :
  documentTypes
    (exec (registerObjects static_types static_labels)
       (exec (registerObjects static_types static_labels) demo_world))
    = ["base"; "default"; "default"; "story"; "story"] ∧
  ¬ NoDup
      (documentTypes
         (exec (registerObjects static_types static_labels)
            (exec (registerObjects static_types static_labels) demo_world))).
Proof.
  assert (E : documentTypes
    (exec (registerObjects static_types static_labels)
       (exec (registerObjects static_types static_labels) demo_world))
    = ["base"; "default"; "default"; "story"; "story"]) by (vm_compute; reflexivity).
  split; [exact E|]. rewrite E. intros H.
  apply NoDup_cons in H as [_ H]. apply NoDup_cons in H as [H _].
  apply H, list_elem_of_here.
Qed.

Lemma registerObjects_twice_witness :
  Sorted string_le
    (documentTypes
       (exec (registerObjects static_types static_labels)
          (exec (registerObjects static_types static_labels) demo_world))) ∧
  typeLabels
    (exec (registerObjects static_types static_labels)
       (exec (registerObjects static_types static_labels) demo_world))
    = typeLabels (exec (registerObjects static_types static_labels) demo_world).
Proof.
  destruct (registerObjects_twice static_types static_labels demo_world)
    as (H1 & _ & H2 & _).
  split; [exact H2 | exact H1].
Defined.

(** ** Sheet swap *)

Lemma get_is_Some {V} (o : list (string * V)) (k : string) :
  k ∈ keys o ↔ is_Some (get o k).
Proof.
  unfold keys. induction o as [|[k' v] o IH]; cbn.
  - split; [by intros ?%elem_of_nil | by intros [? ?]].
  - rewrite elem_of_cons. case_decide as Hk; subst.
    + split; [by eauto | by left].
    + rewrite <- IH. split; [intros [? | ?]; [congruence | done] | by right].
Qed.

(** The hook returns at once, changing nothing, when the acting user is
    not the creating one or the options' type is no key of the
    registered types. *)
Lemma createJournalEntry_guard (doc : string) (opts : options) (userId : string)
    (w : world) :
  user w ≠ userId ∨ includes (keys (types w)) (opt_type opts) = false →
  createJournalEntry doc opts userId w = (Returned tt, w).
Proof.
  intros H. unfold createJournalEntry. unfold_M. cbn.
  destruct H as [H | H].
  - by rewrite bool_decide_true by done.
  - rewrite H. cbn. by rewrite orb_true_r.
Qed.

Lemma alter_lookup_Some {V} (f : V → V) (m : gmap string V) (k : string) (x : V) :
  m !! k = Some x → alter f k m = <[k := f x]> m.
Proof.
  intros H. apply map_eq. intros i. destruct (decide (k = i)) as [->|Hne].
  - by rewrite lookup_alter_eq, lookup_insert_eq, H.
  - by rewrite lookup_alter_ne, lookup_insert_ne.
Qed.

Lemma world_eq (w1 w2 : world) :
  pages w1 = pages w2 → journal w1 = journal w2 → user w1 = user w2 →
  translations w1 = translations w2 → documentTypes w1 = documentTypes w2 →
  typeLabels w1 = typeLabels w2 → types w1 = types w2 → labels w1 = labels w2 →
  activeType w1 = activeType w2 → nextAppId w1 = nextAppId w2 → trace w1 = trace w2 →
  w1 = w2.
Proof. destruct w1, w2. cbn. by intros -> -> -> -> -> -> -> -> -> -> ->. Qed.

(** Simplification that leaves map operations and string appends folded. *)
Ltac swap_simpl := cbn -[insert lookup alter delete String.append].

(** Past the guard the swap runs for every key of the registered types,
    ["default"] included: the cached sheet is dropped, the flag
    [core.sheetClass] is set to the class bound to the key, the old
    sheet is closed and a freshly resolved one rendered. *)
Lemma createJournalEntry_swaps (doc : string) (d : document) (t : string)
    (c : sheetClass) (w : world) :
  journal w !! doc = Some d → _id d = doc → get (types w) t = Some c →
  let old := sheet_of w doc d in
  let n := match _sheet d with Some _ => nextAppId w | None => N.succ (nextAppId w) end in
  let new := SheetInstance n doc ("journals." +:+ name c) in
  fst (createJournalEntry doc (Options (Some t)) (user w) w) = Returned tt ∧
  emitted (createJournalEntry doc (Options (Some t)) (user w)) w
    = [SetFlag doc "core" "sheetClass" ("journals." +:+ name c); Close old;
       JournalGet doc; Render new true] ∧
  journal (exec (createJournalEntry doc (Options (Some t)) (user w)) w) !! doc
    = Some (Document doc (Some new) (<[n := new]> (delete (appId old) (apps d)))
              (<[("core", "sheetClass") := "journals." +:+ name c]> (flags d))).
Proof.
  intros Hd Hid Hc old n new.
  assert (Hin : includes (keys (types w)) (Some t) = true).
  { cbn. apply bool_decide_eq_true, get_is_Some. by rewrite Hc. }
  assert (E : createJournalEntry doc (Options (Some t)) (user w) w =
    (Returned tt,
     World (pages w)
       (<[doc := Document doc (Some new) (<[n := new]> (delete (appId old) (apps d)))
                   (<[("core", "sheetClass") := "journals." +:+ name c]> (flags d))]>
          (journal w))
       (user w) (translations w) (documentTypes w) (typeLabels w) (types w) (labels w)
       (activeType w) (N.succ n)
       (trace w ++ [SetFlag doc "core" "sheetClass" ("journals." +:+ name c); Close old;
                    JournalGet doc; Render new true]))).
  { unfold createJournalEntry, postCreateJournalEntry. unfold_M. cbn [opt_type].
    rewrite Hin, bool_decide_false by (intros H; by apply H). cbn [orb negb].
    rewrite Hd. cbn [option_bind mbind]. rewrite Hc.
    subst old n new. unfold sheet_of.
    destruct (_sheet d) as [s|] eqn:Hs; swap_simpl;
      rewrite ?(alter_lookup_Some _ _ _ _ Hd);
      repeat (rewrite ?alter_insert_eq, ?lookup_insert_eq, ?insert_insert_eq, ?Hid;
              swap_simpl);
      (f_equal; apply world_eq; swap_simpl; try reflexivity);
      unfold resolveSheetClass; swap_simpl; rewrite lookup_insert_eq; swap_simpl;
      rewrite <- ?(assoc_L (++)); reflexivity. }
  split; [by rewrite E|]. split.
  - apply emitted_app. by rewrite E.
  - unfold exec. rewrite E. cbn. apply lookup_insert_eq.
Qed.

(** C3, at the input where the code departs from it.  The acting user
    is the creating user and the created document's [options.type] is
    ["default"]: the hook does not return early but performs the whole
    swap, persisting the flag [core.sheetClass = "journals.JournalSheet"]
    on the document, closing its sheet and rendering a new one. *)
Theorem createJournalEntry_default_swaps :
  fst (createJournalEntry "j1" (Options (Some "default")) "u1" demo_world) = Returned tt ∧
  emitted (createJournalEntry "j1" (Options (Some "default")) "u1") demo_world
    = [SetFlag "j1" "core" "sheetClass" "journals.JournalSheet";
       Close (SheetInstance 7 "j1" "journals.JournalSheet");
       JournalGet "j1";
       Render (SheetInstance 8 "j1" "journals.JournalSheet") true] ∧
  (journal demo_world !! "j1" ≫= λ d, flags d !! ("core", "sheetClass")) = None ∧
  (journal (exec (createJournalEntry "j1" (Options (Some "default")) "u1") demo_world)
     !! "j1" ≫= λ d, flags d !! ("core", "sheetClass")) = Some "journals.JournalSheet".
Proof.
  destruct (createJournalEntry_swaps "j1" demo_doc "default" JournalSheet demo_world)
    as (H1 & H2 & H3); [reflexivity .. |].
  split; [exact H1|]. split; [exact H2|]. split; [reflexivity|].
  change (user demo_world) with "u1" in H3. rewrite H3. reflexivity.
Qed.

(** * Further properties of the module *)

(** ** Sender and receivers *)

(** Whatever [showStoryByIDToAll d p] broadcasts, for a page other than
    0 and an id that is neither empty nor ["__proto__"], a receiver that
    handles it ends with the entry the sender has: both directories map
    [d] to [p].  The receiver's other entries are untouched. *)
Theorem relay_agreement (d : string) (p : Z) (sender receiver : world)
    (channel : string) (m : message) :
  p ≠ 0 → d ≠ "" → d ≠ "__proto__" →
  (channel, m) ∈ emits (emitted (showStoryByIDToAll d p) sender) →
  channel = "module.storyteller" ∧
  pages (exec (_setPageToOpen m) receiver) !! d = Some p ∧
  pages (exec (showStoryByIDToAll d p) sender) !! d = Some p ∧
  ∀ k, k ≠ d → pages (exec (_setPageToOpen m) receiver) !! k = pages receiver !! k.
Proof.
  intros Hp Hd Hd'. rewrite showStoryByIDToAll_emitted, bool_decide_true by done.
  assert (Hm : emits
    ([Emit "module.storyteller" (Message "setPageToOpen" d p);
      SettingsSet (assign d p (pages sender))]
     ++ JournalGet d ::
        match journal sender !! d with Some _ => [Show d "text"] | None => [] end)
    = [("module.storyteller", Message "setPageToOpen" d p)]).
  { by destruct (journal sender !! d). }
  rewrite Hm. intros Hin. apply list_elem_of_singleton in Hin.
  injection Hin as -> ->.
  rewrite _setPageToOpen_pages, showStoryByIDToAll_pages. cbn.
  rewrite (bool_decide_true (_ ∧ _)) by (split; [done | congruence]).
  rewrite (bool_decide_true (p ≠ 0)) by done.
  split; [done|]. split; [by apply assign_lookup_eq|].
  split; [by apply assign_lookup_eq|].
  intros k Hk. by apply assign_lookup_ne.
Qed.

Lemma relay_agreement_witness :
  pages (exec (_setPageToOpen (Message "setPageToOpen" "j1" 3)) demo_world) !! "j1"
    = Some 3.
Proof.
  assert (Hp : 3 ≠ 0) by lia.
  assert (Hd : "j1" ≠ "") by discriminate.
  assert (Hd' : "j1" ≠ "__proto__") by discriminate.
  assert (Hin : ("module.storyteller", Message "setPageToOpen" "j1" 3)
                  ∈ emits (emitted (showStoryByIDToAll "j1" 3) demo_world))
    by apply list_elem_of_here.
  exact (proj1 (proj2 (relay_agreement "j1" 3 demo_world demo_world _ _ Hp Hd Hd' Hin))).
Defined.



(** Repeating [showStoryByIDToAll d p] with a page other than 0 is not
    suppressed: the second call broadcasts the same message again, and
    the page directory ends as after one call. *)
Theorem showStoryByIDToAll_repeated (d : string) (p : Z) (w : world) :
  p ≠ 0 →
  let w1 := exec (showStoryByIDToAll d p) w in
  emits (emitted (showStoryByIDToAll d p) w1)
    = emits (emitted (showStoryByIDToAll d p) w) ∧
  emits (emitted (showStoryByIDToAll d p) w1)
    = [("module.storyteller", Message "setPageToOpen" d p)] ∧
  pages (exec (showStoryByIDToAll d p) w1) = pages w1.
Proof.
  intros Hp w1. subst w1.
  rewrite !showStoryByIDToAll_emitted, !showStoryByIDToAll_pages.
  rewrite !bool_decide_true by done.
  split; [|split].
  - by destruct (journal w !! d), (journal (exec (showStoryByIDToAll d p) w) !! d).
  - by destruct (journal (exec (showStoryByIDToAll d p) w) !! d).
  - apply assign_assign.
Qed.

Lemma showStoryByIDToAll_repeated_witness :
  emits (emitted (showStoryByIDToAll "j1" 3) (exec (showStoryByIDToAll "j1" 3) demo_world))
    = [("module.storyteller", Message "setPageToOpen" "j1" 3)].
Proof.
  assert (Hp : 3 ≠ 0) by lia.
  exact (proj1 (proj2 (showStoryByIDToAll_repeated "j1" 3 demo_world Hp))).
Defined.

(** ** Missing documents *)

(** [showStoryByIDToAll] and [showStoryToPlayerOnly] raise a
    [TypeError] exactly when the journal holds no document with the
    given id.  The failure comes last: for a page other than 0 the
    broadcast has gone out and the assignment to the page directory has
    been made and stored (so the directory holds the new entry, unless
    the id is ["__proto__"]), while nothing was shown or rendered. *)
Theorem render_failure (id : string) (page : Z) (w : world) :
  (fst (showStoryByIDToAll id page w) = Thrown TypeError ↔ journal w !! id = None) ∧
  (fst (showStoryToPlayerOnly id page w) = Thrown TypeError ↔ journal w !! id = None) ∧
  (journal w !! id = None → page ≠ 0 →
     emits (emitted (showStoryByIDToAll id page) w)
       = [("module.storyteller", Message "setPageToOpen" id page)] ∧
     pages (exec (showStoryByIDToAll id page) w) = assign id page (pages w) ∧
     shows (emitted (showStoryByIDToAll id page) w) = [] ∧
     pages (exec (showStoryToPlayerOnly id page) w) = assign id page (pages w) ∧
     renders (emitted (showStoryToPlayerOnly id page) w) = [] ∧
     (id ≠ "__proto__" →
        pages (exec (showStoryByIDToAll id page) w) !! id = Some page ∧
        pages (exec (showStoryToPlayerOnly id page) w) !! id = Some page)).
Proof.
  split; [|split].
  - rewrite showStoryByIDToAll_run. cbn.
    destruct (journal w !! id); split; intros H; done.
  - rewrite showStoryToPlayerOnly_run. cbn.
    destruct (journal w !! id) as [d|]; [destruct (_sheet d)|]; split; intros H; done.
  - intros E Hp.
    rewrite showStoryByIDToAll_emitted, showStoryToPlayerOnly_emitted,
      showStoryByIDToAll_pages, showStoryToPlayerOnly_pages, E.
    rewrite !bool_decide_true by done. cbn.
    repeat split; by apply assign_lookup_eq.
Qed.

Lemma render_failure_witness :
  fst (showStoryByIDToAll "gone" 2 demo_world) = Thrown TypeError ∧
  emits (emitted (showStoryByIDToAll "gone" 2) demo_world)
    = [("module.storyteller", Message "setPageToOpen" "gone" 2)] ∧
  pages (exec (showStoryByIDToAll "gone" 2) demo_world) !! "gone" = Some 2.
Proof.
  destruct (render_failure "gone" 2 demo_world) as (H1 & _ & H3).
  assert (E : journal demo_world !! "gone" = None) by reflexivity.
  assert (Hp : 2 ≠ 0) by lia.
  destruct (H3 E Hp) as (He & _ & _ & _ & _ & Hg).
  split; [apply H1, E|]. split; [exact He|]. apply Hg. discriminate.
Defined.

Lemma postCreateJournalEntry_run (id : string) (w : world) :
  postCreateJournalEntry id w = showStoryToPlayerOnly id 0 w.
Proof. reflexivity. Qed.

(** [postCreateJournalEntry id] does what [showStoryToPlayerOnly id 0]
    does: it raises a [TypeError] exactly when the journal holds no
    document [id] (in particular for the default id [""] of a call
    without argument, unless a document has that id); otherwise it
    renders that document's sheet once and returns.  It never
    broadcasts and never changes the page directory. *)
Theorem postCreateJournalEntry_renders (id : string) (w : world) :
  postCreateJournalEntry id w = showStoryToPlayerOnly id 0 w ∧
  (fst (postCreateJournalEntry id w) = Thrown TypeError ↔ journal w !! id = None) ∧
  (∀ d, journal w !! id = Some d →
     fst (postCreateJournalEntry id w) = Returned tt ∧
     renders (emitted (postCreateJournalEntry id) w) = [(sheet_of w id d, true)]) ∧
  emits (emitted (postCreateJournalEntry id) w) = [] ∧
  pages (exec (postCreateJournalEntry id) w) = pages w.
Proof.
  split; [reflexivity|].
  assert (Hm : emitted (postCreateJournalEntry id) w
               = emitted (showStoryToPlayerOnly id 0) w) by reflexivity.
  assert (Hx : exec (postCreateJournalEntry id) w
               = exec (showStoryToPlayerOnly id 0) w) by reflexivity.
  rewrite Hm, Hx, postCreateJournalEntry_run, showStoryToPlayerOnly_emitted,
    showStoryToPlayerOnly_pages, showStoryToPlayerOnly_run. cbn.
  destruct (journal w !! id) as [d|] eqn:E.
  - split; [by destruct (_sheet d)|]. split; [|done].
    intros d' [= <-]. split; [by destruct (_sheet d) | done].
  - done.
Qed.

Lemma postCreateJournalEntry_renders_witness :
  fst (postCreateJournalEntry "" demo_world) = Thrown TypeError ∧
  renders (emitted (postCreateJournalEntry "j1") demo_world)
    = [(SheetInstance 7 "j1" "journals.JournalSheet", true)].
Proof.
  split.
  - destruct (postCreateJournalEntry_renders "" demo_world) as (_ & H & _).
    apply H. reflexivity.
  - destruct (postCreateJournalEntry_renders "j1" demo_world) as (_ & _ & H & _).
    apply (H demo_doc). reflexivity.
Defined.

(** ** Post-creation hook *)

(** [createJournalEntry] is a no-op, with no host call at all, when the
    acting user is not the creating user, when the options carry no
    type, or when their type is no key of the registered types; this
    does not depend on the document passed. *)
Theorem createJournalEntry_ignores (doc : string) (opts : options) (userId : string)
    (w : world) :
  user w ≠ userId ∨ opt_type opts = None ∨
    (∃ t, opt_type opts = Some t ∧ t ∉ keys (types w)) →
  createJournalEntry doc opts userId w = (Returned tt, w) ∧
  emitted (createJournalEntry doc opts userId) w = [].
Proof.
  intros H.
  assert (E : createJournalEntry doc opts userId w = (Returned tt, w)).
  { apply createJournalEntry_guard. destruct H as [H | [H | (t & H & Hn)]].
    - by left.
    - right. by rewrite H.
    - right. rewrite H. cbn. by apply bool_decide_eq_false. }
  split; [exact E|]. apply emitted_app. by rewrite E, (right_id_L [] (++)).
Qed.

Lemma createJournalEntry_ignores_witness :
  createJournalEntry "j1" (Options (Some "story")) "u2" demo_world
    = (Returned tt, demo_world) ∧
  createJournalEntry "j1" (Options None) "u1" demo_world = (Returned tt, demo_world) ∧
  createJournalEntry "j1" (Options (Some "fullscreen")) "u1" demo_world
    = (Returned tt, demo_world).
Proof.
  split; [|split].
  - apply (createJournalEntry_ignores "j1" (Options (Some "story")) "u2" demo_world).
    left. discriminate.
  - apply (createJournalEntry_ignores "j1" (Options None) "u1" demo_world).
    right. left. reflexivity.
  - apply (createJournalEntry_ignores "j1" (Options (Some "fullscreen")) "u1" demo_world).
    right. right. exists "fullscreen". split; [reflexivity|].
    cbn. intros Hin. apply list_elem_of_In in Hin. cbn in Hin.
    destruct Hin as [H1 | [H1 | []]]; discriminate H1.
Defined.

(** When the acting user created the document and the options' type is
    a key of the registered types bound to class [c], the hook returns
    after four host calls in this order: the flag [core.sheetClass] is
    set to ["journals."] followed by the name of [c], the sheet the
    document had is closed, the document is fetched again and its new
    sheet rendered.  Afterwards the document carries that flag and
    keeps its other flags, its cached sheet is the rendered one, of the
    flagged class, the closed sheet is no longer among its apps, and the
    page directory is as before. *)
Theorem createJournalEntry_applies (doc : string) (d : document) (t : string)
    (c : sheetClass) (w : world) :
  journal w !! doc = Some d → _id d = doc → get (types w) t = Some c →
  let old := sheet_of w doc d in
  let w' := exec (createJournalEntry doc (Options (Some t)) (user w)) w in
  fst (createJournalEntry doc (Options (Some t)) (user w) w) = Returned tt ∧
  (∃ new d',
     emitted (createJournalEntry doc (Options (Some t)) (user w)) w
       = [SetFlag doc "core" "sheetClass" ("journals." +:+ name c); Close old;
          JournalGet doc; Render new true] ∧
     sheetCls new = "journals." +:+ name c ∧ object new = doc ∧
     journal w' !! doc = Some d' ∧
     _id d' = doc ∧ _sheet d' = Some new ∧
     flags d' !! ("core", "sheetClass") = Some ("journals." +:+ name c) ∧
     (∀ k, k ≠ ("core", "sheetClass") → flags d' !! k = flags d !! k) ∧
     (appId old ≠ appId new → apps d' !! appId old = None)) ∧
  pages w' = pages w.
Proof.
  intros Hd Hid Hc old w'.
  destruct (createJournalEntry_swaps doc d t c w Hd Hid Hc) as (H1 & H2 & H3).
  split; [exact H1|]. split.
  - eexists _, _. split; [exact H2|]. split; [reflexivity|]. split; [reflexivity|].
    split; [exact H3|]. cbn. split; [reflexivity|]. split; [reflexivity|].
    split; [apply lookup_insert_eq|]. split.
    + intros k Hk. by apply lookup_insert_ne.
    + intros Hne. rewrite lookup_insert_ne by done. apply lookup_delete_eq.
  - apply keeps_createJournalEntry.
Qed.

Lemma createJournalEntry_applies_witness :
  fst (createJournalEntry "j1" (Options (Some "story")) "u1" demo_world) = Returned tt ∧
  pages (exec (createJournalEntry "j1" (Options (Some "story")) "u1") demo_world)
    = pages demo_world.
Proof.
  assert (Hd : journal demo_world !! "j1" = Some demo_doc) by reflexivity.
  assert (Hid : _id demo_doc = "j1") by reflexivity.
  assert (Hc : get (types demo_world) "story" = Some StorySheet) by reflexivity.
  destruct (createJournalEntry_applies "j1" demo_doc "story" StorySheet demo_world
              Hd Hid Hc) as (H1 & _ & H3).
  split; [exact H1 | exact H3].
Defined.

(** ** Assignment to an object's key *)

Lemma get_update_eq {V} (k : string) (v : V) (o : list (string * V)) :
  k ∈ keys o → get (update k v o) k = Some v.
Proof.
  unfold keys. induction o as [|[k' v'] o IH]; cbn.
  - by intros ?%elem_of_nil.
  - intros Hin. destruct (decide (k' = k)) as [->|Hne]; cbn.
    + by rewrite decide_True.
    + rewrite decide_False by done. apply IH.
      apply elem_of_cons in Hin as [?|?]; [congruence | done].
Qed.

Lemma get_update_ne {V} (k k' : string) (v : V) (o : list (string * V)) :
  k' ≠ k → get (update k v o) k' = get o k'.
Proof.
  intros Hne. induction o as [|[k0 v0] o IH]; cbn; [done|].
  destruct (decide (k0 = k)) as [->|Hk]; cbn.
  - by rewrite !decide_False.
  - destruct (decide (k0 = k')); [done | exact IH].
Qed.

Lemma keys_update {V} (k : string) (v : V) (o : list (string * V)) :
  keys (update k v o) = keys o.
Proof.
  unfold keys. induction o as [|[k' v'] o IH]; cbn; [done|].
  destruct (decide (k' = k)) as [->|Hne]; cbn; [done | by rewrite IH].
Qed.

Lemma get_place_eq {V} (n : N) (k : string) (v : V) (o : list (string * V)) :
  k ∉ keys o → get (place n k v o) k = Some v.
Proof.
  unfold keys. induction o as [|[k' v'] o IH]; cbn.
  - intros _. by rewrite decide_True.
  - intros Hin. apply not_elem_of_cons in Hin as [Hne Hin].
    destruct (array_index k') as [n'|]; [destruct (n' <? n)%N|]; cbn.
    + rewrite decide_False by done. by apply IH.
    + by rewrite decide_True.
    + by rewrite decide_True.
Qed.

Lemma get_place_ne {V} (n : N) (k k' : string) (v : V) (o : list (string * V)) :
  k' ≠ k → get (place n k v o) k' = get o k'.
Proof.
  intros Hne. induction o as [|[k0 v0] o IH]; cbn.
  - by rewrite decide_False.
  - destruct (array_index k0) as [n'|]; [destruct (n' <? n)%N|]; cbn.
    + destruct (decide (k0 = k')); [done | exact IH].
    + by rewrite (decide_False (P := k = k')).
    + by rewrite (decide_False (P := k = k')).
Qed.

Lemma keys_place {V} (n : N) (k : string) (v : V) (o : list (string * V)) :
  keys (place n k v o) ≡ₚ k :: keys o.
Proof.
  unfold keys. induction o as [|[k' v'] o IH]; cbn; [done|].
  destruct (array_index k') as [n'|]; [destruct (n' <? n)%N|]; cbn; [|done|done].
  rewrite IH. apply Permutation_swap.
Qed.

Lemma put_proto {V} (v : V) (o : list (string * V)) : put "__proto__" v o = o.
Proof. reflexivity. Qed.

Lemma put_nil {V} (k : string) (v : V) :
  put k v [] = if decide (k = "__proto__") then [] else [(k, v)].
Proof.
  unfold put. case_decide; [done|].
  rewrite decide_False by apply not_elem_of_nil. by destruct (array_index k).
Qed.

Lemma get_put_eq {V} (k : string) (v : V) (o : list (string * V)) :
  k ≠ "__proto__" → get (put k v o) k = Some v.
Proof.
  intros Hp. unfold put. rewrite decide_False by done.
  case_decide as Hin; [by apply get_update_eq|].
  destruct (array_index k); [by apply get_place_eq|].
  induction o as [|[k' v'] o IH]; cbn.
  - by rewrite decide_True.
  - unfold keys in Hin. cbn in Hin. apply not_elem_of_cons in Hin as [Hne Hin].
    rewrite decide_False by done. by apply IH.
Qed.

Lemma get_put_ne {V} (k k' : string) (v : V) (o : list (string * V)) :
  k' ≠ k → get (put k v o) k' = get o k'.
Proof.
  intros Hne. unfold put. case_decide; [done|].
  case_decide as Hin; [by apply get_update_ne|].
  destruct (array_index k); [by apply get_place_ne|]. clear Hin.
  induction o as [|[k0 v0] o IH]; cbn.
  - by rewrite decide_False.
  - destruct (decide (k0 = k')); [done | exact IH].
Qed.

Lemma keys_put_subseteq {V} (k : string) (v : V) (o : list (string * V)) :
  keys o ⊆ keys (put k v o).
Proof.
  unfold put. case_decide; [done|]. case_decide; [by rewrite keys_update|].
  destruct (array_index k).
  - intros x Hx. rewrite keys_place. by apply list_elem_of_further.
  - intros x Hx. unfold keys. rewrite fmap_app. apply elem_of_app. by left.
Qed.

Lemma registerAddonSheet_run (s : addon) (w : world) :
  registerAddonSheet s w =
    (Returned tt,
     set_labels (put (addon_key s) (addon_label s) (labels w))
       (set_types (put (addon_key s) (addon_sheet s) (types w))
          (exec (registerObjects (put (addon_key s) (addon_sheet s) [])
                                 (put (addon_key s) (addon_label s) [])) w))).
Proof.
  unfold registerAddonSheet, exec. unfold mbind, M_bind.
  rewrite registerObjects_run. reflexivity.
Qed.

(** ** Addon sheets *)

(** After [registerAddonSheet s], for a key other than ["__proto__"],
    the module's two tables bind the addon's key to its sheet and its
    label, every other key of the two tables is bound as before, the
    key is in the host's known-type list, and the host's type-label
    table maps it to the addon's label and every other key to what it
    held. *)
Theorem registerAddonSheet_tables (s : addon) (w : world) :
  addon_key s ≠ "__proto__" →
  let w' := exec (registerAddonSheet s) w in
  get (types w') (addon_key s) = Some (addon_sheet s) ∧
  get (labels w') (addon_key s) = Some (addon_label s) ∧
  (∀ k, k ≠ addon_key s →
     get (types w') k = get (types w) k ∧ get (labels w') k = get (labels w) k) ∧
  addon_key s ∈ documentTypes w' ∧
  ∃ t, typeLabels w' = Some t ∧
       t !! addon_key s = Some (addon_label s) ∧
       ∀ k, k ≠ addon_key s → t !! k = default ∅ (typeLabels w) !! k.
Proof.
  intros Hp. unfold exec. rewrite registerAddonSheet_run. unfold exec.
  rewrite registerObjects_run, !put_nil, !decide_False by done. cbn.
  split; [by apply get_put_eq|]. split; [by apply get_put_eq|]. split.
  - intros k Hk. by rewrite !get_put_ne.
  - split.
    + apply sort_elem_of, elem_of_app. right. apply list_elem_of_here.
    + eexists. split; [reflexivity|]. split; [apply lookup_insert_eq|].
      intros k Hk. by apply lookup_insert_ne.
Qed.

(** [registerAddonSheet s] makes one sheet registration, for the
    addon's sheet under its localized label, unless the addon's key is
    ["default"] or ["__proto__"].  For ["default"] it makes no host
    call, yet the module's table now binds ["default"] to the addon's
    sheet.  For ["__proto__"] it makes no host call and the keys and
    bindings of the module's two tables are as before. *)
Theorem registerAddonSheet_calls (s : addon) (w : world) :
  fst (registerAddonSheet s w) = Returned tt ∧
  (addon_key s ≠ "default" → addon_key s ≠ "__proto__" →
     emitted (registerAddonSheet s) w
       = [RegisterSheet "journals" (addon_sheet s) ["base"] false
            (Some (localize w (addon_label s)))]) ∧
  (addon_key s = "default" →
     emitted (registerAddonSheet s) w = [] ∧
     get (types (exec (registerAddonSheet s) w)) "default" = Some (addon_sheet s)) ∧
  (addon_key s = "__proto__" →
     emitted (registerAddonSheet s) w = [] ∧
     types (exec (registerAddonSheet s) w) = types w ∧
     labels (exec (registerAddonSheet s) w) = labels w).
Proof.
  split; [by rewrite registerAddonSheet_run|].
  assert (Hm : emitted (registerAddonSheet s) w
               = registration_of w (put (addon_key s) (addon_label s) [])
                   <$> registered_entries (put (addon_key s) (addon_sheet s) [])).
  { apply emitted_app. rewrite registerAddonSheet_run. unfold exec.
    by rewrite registerObjects_run. }
  rewrite Hm, !put_nil. unfold registered_entries. split; [|split].
  - intros Hk Hp. rewrite !decide_False by done.
    rewrite filter_cons, filter_nil. cbn [fst]. rewrite decide_True by done. cbn.
    unfold registration_of. cbn. by rewrite decide_True.
  - intros Hk. rewrite !decide_False by (rewrite Hk; discriminate).
    rewrite filter_cons, filter_nil. cbn [fst].
    rewrite decide_False by (intros H; by apply H).
    split; [done|]. unfold exec. rewrite registerAddonSheet_run. cbn.
    rewrite <- Hk. apply get_put_eq. rewrite Hk. discriminate.
  - intros Hp. rewrite !decide_True by done. split; [done|].
    unfold exec. rewrite registerAddonSheet_run, Hp. split; reflexivity.
Qed.

Lemma registerAddonSheet_calls_witness :
  emitted (registerAddonSheet (Addon "map" (SheetClass "MapSheet") "Map")) demo_world
    = [RegisterSheet "journals" (SheetClass "MapSheet") ["base"] false (Some "Map")] ∧
  emitted (registerAddonSheet (Addon "default" (SheetClass "MapSheet") "Map")) demo_world
    = [] ∧
  emitted (registerAddonSheet (Addon "__proto__" (SheetClass "MapSheet") "Map"))
    demo_world = [].
Proof.
  split; [|split].
  - destruct (registerAddonSheet_calls (Addon "map" (SheetClass "MapSheet") "Map")
                demo_world) as (_ & H & _).
    apply H; discriminate.
  - destruct (registerAddonSheet_calls (Addon "default" (SheetClass "MapSheet") "Map")
                demo_world) as (_ & _ & H & _).
    apply H. reflexivity.
  - destruct (registerAddonSheet_calls (Addon "__proto__" (SheetClass "MapSheet") "Map")
                demo_world) as (_ & _ & _ & H).
    apply H. reflexivity.
Defined.

(** ** Label merge *)

(** One run of the registration step leaves the host's label of every
    key that the label set does not mention as it was (no label when
    the host had no table), and, the label set being an object (its
    keys pairwise distinct), gives every key of the label set the label
    paired with it there, overwriting the host's. *)
Theorem registerObjects_labels (tys : list (string * sheetClass))
    (lbls : list (string * string)) (w : world) (k : string) :
  let t := default ∅ (typeLabels w) in
  let t' := default ∅ (typeLabels (exec (registerObjects tys lbls) w)) in
  (k ∉ keys lbls → t' !! k = t !! k) ∧
  (NoDup (keys lbls) → ∀ v, (k, v) ∈ lbls → t' !! k = Some v).
Proof.
  unfold exec. rewrite registerObjects_run. cbn. rewrite mergeObject_union. split.
  - intros Hk. rewrite lookup_union_r; [done|].
    apply not_elem_of_list_to_map_1. unfold keys in Hk.
    by rewrite fmap_reverse, elem_of_reverse.
  - intros Hnd v Hin. apply lookup_union_Some_l.
    apply elem_of_list_to_map_1.
    + by rewrite fmap_reverse, reverse_Permutation.
    + by apply elem_of_reverse.
Qed.

Lemma registerObjects_labels_witness :
  default ∅ (typeLabels (exec (registerObjects static_types static_labels) demo_world))
    !! "story" = Some "STORYTELLER.StoryEntry".
Proof.
  destruct (registerObjects_labels static_types static_labels demo_world "story")
    as [_ H].
  apply H.
  - cbn. repeat constructor.
    + intros Hin. apply list_elem_of_In in Hin. cbn in Hin.
      destruct Hin as [H1 | []]. discriminate H1.
    + apply not_elem_of_nil.
  - apply list_elem_of_here.
Defined.

Lemma registerAddonSheet_tables_witness :
  get (types (exec (registerAddonSheet (Addon "map" (SheetClass "MapSheet") "Map"))
                demo_world)) "map" = Some (SheetClass "MapSheet") ∧
  get (types (exec (registerAddonSheet (Addon "map" (SheetClass "MapSheet") "Map"))
                demo_world)) "story" = Some StorySheet.
Proof.
  assert (Hp : "map" ≠ "__proto__") by discriminate.
  destruct (registerAddonSheet_tables (Addon "map" (SheetClass "MapSheet") "Map")
              demo_world Hp) as (H1 & _ & H3 & _).
  split; [exact H1|].
  destruct (H3 "story") as [-> _]; [discriminate | reflexivity].
Defined.

(** ** Initialization *)

Lemma init_run (w : world) :
  init w =
    (Returned tt,
     log (SocketOn "module.storyteller") (exec (registerObjects (types w) (labels w)) w)).
Proof.
  unfold init, exec. unfold_M. cbn. unfold mbind, M_bind.
  rewrite registerObjects_run. reflexivity.
Qed.


(** ** Relations every step keeps *)

Section preserves.
Context (R : relation world) `{!PreOrder R}.

Lemma preserves_ret {A} (a : A) : preserves R (mret a).
Proof. intros w. reflexivity. Qed.

Lemma preserves_throw {A} (e : jsError) : preserves R (mthrow (A := A) e).
Proof. intros w. reflexivity. Qed.

Lemma preserves_get_world : preserves R get_world.
Proof. intros w. reflexivity. Qed.

Lemma preserves_modify (f : world → world) :
  (∀ w, R w (f w)) → preserves R (modify f).
Proof. intros H w. apply H. Qed.

Lemma preserves_bind {A B} (m : M A) (f : A → M B) :
  preserves R m → (∀ a, preserves R (f a)) → preserves R (m ≫= f).
Proof.
  intros Hm Hf w. unfold mbind, M_bind. specialize (Hm w).
  destruct (m w) as [[a|e] w']; cbn in *; [|done].
  etrans; [exact Hm | apply Hf].
Qed.
End preserves.

(** The code that touches only the log, the page directory, the journal
    and the host's application counter keeps every relation that these
    four updates keep. *)
Section frame.
Context (R : relation world) `{!PreOrder R}.
Hypothesis R_log : ∀ e w, R w (log e w).
Hypothesis R_pages : ∀ p w, R w (set_pages p w).
Hypothesis R_journal : ∀ j w, R w (set_journal j w).
Hypothesis R_nextAppId : ∀ n w, R w (set_nextAppId n w).

Lemma R_log_after (e : event) (w w' : world) : R w w' → R w (log e w').
Proof. intros H. etrans; [exact H | apply R_log]. Qed.

Lemma R_pages_after (p : gmap string Z) (w w' : world) : R w w' → R w (set_pages p w').
Proof. intros H. etrans; [exact H | apply R_pages]. Qed.

Lemma R_journal_after (j : gmap string document) (w w' : world) :
  R w w' → R w (set_journal j w').
Proof. intros H. etrans; [exact H | apply R_journal]. Qed.

Lemma R_nextAppId_after (n : N) (w w' : world) : R w w' → R w (set_nextAppId n w').
Proof. intros H. etrans; [exact H | apply R_nextAppId]. Qed.

Ltac frame_step :=
  first
    [ apply preserves_ret; apply _ | apply preserves_throw; apply _
    | apply preserves_get_world; apply _
    | apply preserves_modify; intros ?;
      repeat first [ apply R_log_after | apply R_pages_after
                   | apply R_journal_after | apply R_nextAppId_after ];
      reflexivity
    | apply preserves_bind; [apply _ | | intros ?]
    | match goal with
      | |- preserves _ (if ?b then _ else _) => destruct b
      | |- preserves _ (match ?x with _ => _ end) => destruct x
      end ].

Lemma frame_journal_get (id : string) : preserves R (journal_get id).
Proof. unfold journal_get. repeat frame_step. Qed.

Lemma frame_deref (story : option string) : preserves R (deref story).
Proof. unfold deref. repeat frame_step. Qed.

Lemma frame_doc_sheet (story : option string) : preserves R (doc_sheet story).
Proof.
  unfold doc_sheet. apply preserves_bind; [apply _ | apply frame_deref | intros [r d]].
  repeat frame_step.
Qed.

Lemma frame_postCreateJournalEntry (id : string) :
  preserves R (postCreateJournalEntry id).
Proof.
  unfold postCreateJournalEntry.
  apply preserves_bind; [apply _ | apply frame_journal_get | intros story].
  apply preserves_bind; [apply _ | apply frame_doc_sheet | intros s].
  unfold sheet_render. repeat frame_step.
Qed.

Lemma frame__setPageToOpen (data : message) : preserves R (_setPageToOpen data).
Proof.
  unfold _setPageToOpen, settings_get_pages, settings_set_pages. repeat frame_step.
Qed.

Lemma frame_showStoryByIDToAll (id : string) (page : Z) :
  preserves R (showStoryByIDToAll id page).
Proof.
  unfold showStoryByIDToAll, socket_emit, settings_get_pages, settings_set_pages.
  apply preserves_bind; [apply _ | repeat frame_step | intros _].
  apply preserves_bind; [apply _ | apply frame_journal_get | intros story].
  unfold doc_show. apply preserves_bind; [apply _ | apply frame_deref | intros [r d]].
  repeat frame_step.
Qed.

Lemma frame_showStoryToPlayerOnly (id : string) (page : Z) :
  preserves R (showStoryToPlayerOnly id page).
Proof.
  unfold showStoryToPlayerOnly, settings_get_pages, settings_set_pages.
  apply preserves_bind; [apply _ | repeat frame_step | intros _].
  apply frame_postCreateJournalEntry.
Qed.

Lemma frame_registerEntries (entries : list (string * sheetClass))
    (lbls : list (string * string)) :
  preserves R (registerEntries entries lbls).
Proof.
  induction entries as [|[key sheet] rest IH]; cbn; [apply preserves_ret, _|].
  apply preserves_bind; [apply _ | | intros _; exact IH].
  unfold registerSheet. repeat frame_step.
Qed.

Lemma frame_preCreateJournalEntry (opts : options) :
  preserves R (preCreateJournalEntry opts).
Proof.
  unfold preCreateJournalEntry, getDocumentTypes, getVeryDirtyHack. repeat frame_step.
Qed.

Lemma frame_createJournalEntry (doc : string) (opts : options) (userId : string) :
  preserves R (createJournalEntry doc opts userId).
Proof.
  unfold createJournalEntry, getDocumentTypes.
  do 2 (apply preserves_bind; [apply _ | repeat frame_step | intros ?]).
  frame_step; [apply preserves_ret, _|].
  apply preserves_bind; [apply _ | apply frame_doc_sheet | intros sheet].
  do 2 (apply preserves_bind; [apply _ | repeat frame_step | intros _]).
  frame_step; [|apply preserves_throw, _].
  unfold doc_setFlag, sheet_close.
  do 2 (apply preserves_bind; [apply _ | repeat frame_step | intros _]).
  apply preserves_bind; [apply _ | apply frame_deref | intros [r d']].
  apply frame_postCreateJournalEntry.
Qed.
End frame.

#[global] Instance same_slot_preorder : PreOrder same_slot.
Proof.
  split; [by intros w | intros w1 w2 w3 H1 H2]. unfold same_slot in *. congruence.
Qed.

#[global] Instance registry_le_preorder : PreOrder registry_le.
Proof.
  split.
  - by intros w.
  - intros w1 w2 w3 (A1 & B1 & C1 & D1) (A2 & B2 & C2 & D2).
    repeat split; etrans; eassumption.
Qed.

Lemma registerObjects_registry_le (tys : list (string * sheetClass))
    (lbls : list (string * string)) (w : world) :
  registry_le w (exec (registerObjects tys lbls) w).
Proof.
  unfold exec. rewrite registerObjects_run. unfold registry_le, label_keys. cbn.
  split; [done|]. split; [done|]. split.
  - intros k Hk. apply sort_elem_of, elem_of_app. by left.
  - rewrite mergeObject_union, dom_union_L. apply union_subseteq_r.
Qed.

Lemma run_call_registry_le (c : call) (w : world) : registry_le w (run_call c w).
Proof.
  destruct c; cbn [run_call]; unfold exec;
    try (first [ apply frame__setPageToOpen | apply frame_showStoryByIDToAll
               | apply frame_showStoryToPlayerOnly | apply frame_preCreateJournalEntry
               | apply frame_createJournalEntry | apply frame_postCreateJournalEntry ];
         first [ apply _ | by intros ]).
  - rewrite init_run. cbn. apply (registerObjects_registry_le (types w) (labels w) w).
  - rewrite registerAddonSheet_run. cbn [snd].
    etrans; [apply (registerObjects_registry_le (put (addon_key s) (addon_sheet s) [])
                      (put (addon_key s) (addon_label s) []) w)|].
    assert (Ht : types (exec (registerObjects (put (addon_key s) (addon_sheet s) [])
                                (put (addon_key s) (addon_label s) [])) w) = types w)
      by (unfold exec; by rewrite registerObjects_run).
    assert (Hl : labels (exec (registerObjects (put (addon_key s) (addon_sheet s) [])
                                 (put (addon_key s) (addon_label s) [])) w) = labels w)
      by (unfold exec; by rewrite registerObjects_run).
    revert Ht Hl.
    generalize (exec (registerObjects (put (addon_key s) (addon_sheet s) [])
                        (put (addon_key s) (addon_label s) [])) w).
    intros w1 Ht Hl. unfold registry_le, label_keys. cbn. rewrite Ht, Hl.
    split; [apply keys_put_subseteq|]. split; [apply keys_put_subseteq | done].
  - done.
  - done.
  - by destruct selectForm as [[v|]|].
Qed.

Lemma run_call_same_slot (c : call) (w : world) :
  writes_slot c = false → same_slot w (run_call c w).
Proof.
  intros Hc. destruct c; try discriminate Hc; cbn [run_call]; unfold exec;
    try (first [ apply frame__setPageToOpen | apply frame_showStoryByIDToAll
               | apply frame_showStoryToPlayerOnly | apply frame_preCreateJournalEntry
               | apply frame_createJournalEntry | apply frame_postCreateJournalEntry ];
         first [ apply _ | by intros ]).
  - rewrite init_run. unfold exec. by rewrite registerObjects_run.
  - rewrite registerAddonSheet_run. unfold exec. by rewrite registerObjects_run.
  - done.
Qed.

Lemma preCreateJournalEntry_run (opts : options) (w : world) :
  preCreateJournalEntry opts w =
    (Returned
       (if includes (keys (types w)) (activeType w)
           && bool_decide (activeType w ≠ Some "default")
        then Options (activeType w) else opts),
     w).
Proof.
  unfold preCreateJournalEntry. unfold_M. cbn. by destruct (_ && _).
Qed.

(** ** Nothing is ever unregistered *)

(** Over any sequence of calls to the module's entry points, every key
    of the module's type table and of its label table stays a key,
    every element of the host's known-type list stays an element, and
    every key the host's type-label table has a label for keeps having
    one. *)
Theorem registry_never_shrinks (cs : list call) (w : world) :
  (∀ k, k ∈ keys (types w) → k ∈ keys (types (run_calls cs w))) ∧
  (∀ k, k ∈ keys (labels w) → k ∈ keys (labels (run_calls cs w))) ∧
  (∀ k, k ∈ documentTypes w → k ∈ documentTypes (run_calls cs w)) ∧
  (∀ k, is_Some (default ∅ (typeLabels w) !! k) →
        is_Some (default ∅ (typeLabels (run_calls cs w)) !! k)).
Proof.
  assert (H : registry_le w (run_calls cs w)).
  { revert w. induction cs as [|c cs IH]; intros w; [done|].
    cbn. etrans; [apply run_call_registry_le | apply IH]. }
  destruct H as (A & B & C & D). repeat split; [exact A | exact B | exact C |].
  intros k Hk. apply elem_of_dom. apply D. by apply elem_of_dom.
Qed.

Lemma registry_never_shrinks_witness :
  "story" ∈ keys (types (run_calls
     [CallRegisterAddonSheet (Addon "story" (SheetClass "MapSheet") "Map"); CallInit]
     demo_world)).
Proof.
  destruct (registry_never_shrinks
              [CallRegisterAddonSheet (Addon "story" (SheetClass "MapSheet") "Map");
               CallInit] demo_world) as (H & _).
  apply H. cbn. apply list_elem_of_further, list_elem_of_here.
Defined.

(** ** The pending type outlives its use *)

(** Once a dialog has closed with a selection [v] that is a key of the
    registered types other than ["default"], every later pre-creation
    hook call sets the options' type to [v], however many calls to the
    other entry points come in between, as long as no dialog closes and
    the slot is not written directly: reading the slot does not clear
    it. *)
Theorem pending_type_persists (v : string) (cs : list call) (opts : options)
    (w : world) :
  v ∈ keys (types w) → v ≠ "default" →
  Forall (λ c, writes_slot c = false) cs →
  fst (preCreateJournalEntry opts
         (run_calls cs (exec (closeDialog (Some (Some v))) w)))
    = Returned (Options (Some v)).
Proof.
  intros Hv Hd Hcs.
  assert (H : ∀ w0, activeType w0 = Some v → v ∈ keys (types w0) →
                activeType (run_calls cs w0) = Some v ∧
                v ∈ keys (types (run_calls cs w0))).
  { induction Hcs as [|c cs Hc Hcs IH]; intros w0 Ha Hk; [done|].
    cbn. apply IH.
    - rewrite <- Ha. by apply run_call_same_slot.
    - by apply (run_call_registry_le c w0). }
  destruct (H (exec (closeDialog (Some (Some v))) w)) as [Ha Hk]; [done | done |].
  rewrite preCreateJournalEntry_run, Ha. cbn.
  rewrite bool_decide_true by done. by rewrite bool_decide_true by congruence.
Qed.

Lemma pending_type_persists_witness :
  fst (preCreateJournalEntry (Options (Some "base"))
         (run_calls [CallPreCreateJournalEntry (Options None);
                     CallCreateJournalEntry "j1" (Options (Some "story")) "u1";
                     CallShowStoryByIDToAll "j1" 2]
            (exec (closeDialog (Some (Some "story"))) demo_world)))
    = Returned (Options (Some "story")).
Proof.
  apply (pending_type_persists "story"); [|discriminate|].
  - cbn. apply list_elem_of_further, list_elem_of_here.
  - repeat constructor.
Defined.

(** What the next pre-creation sees after a dialog closes depends on
    that dialog alone: the slot holds its selection, or [""] when it has
    no selection control, and the hook sets the options' type to it
    exactly when it is a key of the registered types other than
    ["default"]; an earlier selection plays no part. *)
Theorem closeDialog_then_preCreate (selectForm : option (option string))
    (opts : options) (w : world) :
  activeType (exec (closeDialog selectForm) w) = Some (selected selectForm) ∧
  fst (preCreateJournalEntry opts (exec (closeDialog selectForm) w))
    = Returned
        (if bool_decide (selected selectForm ∈ keys (types w)
                         ∧ selected selectForm ≠ "default")
         then Options (Some (selected selectForm)) else opts).
Proof.
  assert (Ha : activeType (exec (closeDialog selectForm) w) = Some (selected selectForm))
    by (by destruct selectForm as [[v|]|]).
  assert (Ht : types (exec (closeDialog selectForm) w) = types w)
    by (by destruct selectForm as [[v|]|]).
  split; [exact Ha|]. rewrite preCreateJournalEntry_run, Ha, Ht. cbn.
  generalize (selected selectForm). intros v.
  destruct (decide (v ∈ keys (types w))) as [Hk|Hk];
    destruct (decide (v = "default")) as [Hd|Hd].
  - rewrite (bool_decide_false (_ ∧ _)) by tauto.
    rewrite (bool_decide_false (Some v ≠ _)); [|intros H; apply H; by rewrite Hd].
    by rewrite andb_false_r.
  - rewrite (bool_decide_true (_ ∧ _)) by tauto.
    rewrite (bool_decide_true (v ∈ _)) by done.
    by rewrite (bool_decide_true (Some v ≠ _)) by congruence.
  - rewrite (bool_decide_false (_ ∧ _)) by tauto.
    by rewrite (bool_decide_false (v ∈ _)) by done.
  - rewrite (bool_decide_false (_ ∧ _)) by tauto.
    by rewrite (bool_decide_false (v ∈ _)) by done.
Qed.

(** ** From the dialog to the custom sheet *)

(** The three hooks in the order the host runs them.  A dialog closes
    with selection [t], a key of the registered types other than
    ["default"], bound to class [c]; the pre-creation hook then sets the
    options' type to [t] whatever the options held; given these options,
    the post-creation hook run by the creating user on a stored
    document renders exactly one sheet, of class ["journals."] followed
    by the name of [c], and leaves that class in the document's
    [core.sheetClass] flag. *)
Theorem creation_flow (doc : string) (d : document) (t : string) (c : sheetClass)
    (opts : options) (w : world) :
  journal w !! doc = Some d → _id d = doc → get (types w) t = Some c →
  t ≠ "default" →
  let w1 := exec (closeDialog (Some (Some t))) w in
  preCreateJournalEntry opts w1 = (Returned (Options (Some t)), w1) ∧
  fst (createJournalEntry doc (Options (Some t)) (user w) w1) = Returned tt ∧
  ∃ new d',
    renders (emitted (createJournalEntry doc (Options (Some t)) (user w)) w1)
      = [(new, true)] ∧
    sheetCls new = "journals." +:+ name c ∧
    journal (exec (createJournalEntry doc (Options (Some t)) (user w)) w1) !! doc
      = Some d' ∧
    flags d' !! ("core", "sheetClass") = Some ("journals." +:+ name c).
Proof.
  intros Hd Hid Hc Ht w1.
  assert (Hk : t ∈ keys (types w)) by (apply get_is_Some; by rewrite Hc).
  split.
  - rewrite preCreateJournalEntry_run.
    change (activeType w1) with (Some t). change (types w1) with (types w). cbn.
    rewrite bool_decide_true by done. by rewrite bool_decide_true by congruence.
  - destruct (createJournalEntry_swaps doc d t c w1 Hd Hid Hc) as (H1 & H2 & H3).
    change (user w1) with (user w) in H1, H2, H3.
    split; [exact H1|]. eexists _, _. rewrite H2. split; [reflexivity|].
    split; [reflexivity|]. split; [exact H3|]. apply lookup_insert_eq.
Qed.

Lemma creation_flow_witness :
  preCreateJournalEntry (Options None)
    (exec (closeDialog (Some (Some "story"))) demo_world)
    = (Returned (Options (Some "story")),
       exec (closeDialog (Some (Some "story"))) demo_world) ∧
  fst (createJournalEntry "j1" (Options (Some "story")) "u1"
         (exec (closeDialog (Some (Some "story"))) demo_world)) = Returned tt.
Proof.
  assert (Hd : journal demo_world !! "j1" = Some demo_doc) by reflexivity.
  assert (Hid : _id demo_doc = "j1") by reflexivity.
  assert (Hc : get (types demo_world) "story" = Some StorySheet) by reflexivity.
  assert (Ht : "story" ≠ "default") by discriminate.
  destruct (creation_flow "j1" demo_doc "story" StorySheet (Options None) demo_world
              Hd Hid Hc Ht) as (H1 & H2 & _).
  split; [exact H1 | exact H2].
Defined.
